(** * Replay-and-trace of one block: [cmd/restapi/apis/retrace_tx_api.go]

    A shallow embedding of [Retrace], [runBlock], [GetBlockByNumber] and
    [ReadChainConfig], together with the components they drive (historical
    reader, write sinks, overlay) and the collaborators they call (execution
    engine, consensus engine, keyed store, JSON decoder).

    Go values are modelled as follows.
    - [[]byte] and [common.Hash] are [list byte]; a nil slice is [[]].
    - [string] is [string]; [int] and [uint64] are [Z] with the wrap-around of
      the conversion written out; [*big.Int] is [option Z] ([None] is nil).
    - [error] is [option error] ([None] is nil); a Go result pair [(v, err)]
      is a Rocq pair.
    - Objects that Go shares through pointers (overlay, reader, writers, gas
      pool, receipts) are fields of one [Machine] record that [runBlock]
      threads through a state monad, next to the log of collaborator calls. *)

From Stdlib Require Import ZArith List String Ascii Bool Lia.
From Stdlib.Strings Require Import Byte.
From Stdlib Require Import DecimalString DecimalPos DecimalN.
Import ListNotations.

Local Open Scope string_scope.
Local Open Scope list_scope.
Local Open Scope Z_scope.

(** ** Bytes and their textual renderings *)

Definition bytes := list byte.

Definition bytes_eqb (a b : bytes) : bool :=
  if list_eq_dec Byte.byte_eq_dec a b then true else false.

(** [encoding/hex]: [const hextable = "0123456789abcdef"]. *)
Definition hextable : string := "0123456789abcdef".

Definition hexdigit (n : N) : ascii :=
  match String.get (N.to_nat n) hextable with
  | Some c => c
  | None => "0"%char
  end.

(** [hex.EncodeToString]: [dst[2i] = hextable[v>>4]], [dst[2i+1] = hextable[v&0x0f]]. *)
Fixpoint hex_EncodeToString (src : bytes) : string :=
  match src with
  | [] => EmptyString
  | v :: rest =>
      String (hexdigit (N.shiftr (Byte.to_N v) 4))
        (String (hexdigit (N.land (Byte.to_N v) 15)) (hex_EncodeToString rest))
  end.

(** Modelled from the spec: [common.Bytes2Hex] is not among the sources; the
    spec gives [hexString] as "the lowercase hexadecimal encoding of a raw key
    byte sequence, no 0x prefix". *)
Definition Bytes2Hex (d : bytes) : string := hex_EncodeToString d.

(** Value of one hexadecimal digit, lowercase alphabet only. *)
Definition fromHexChar (c : ascii) : option N :=
  let n := N_of_ascii c in
  if ((48 <=? n) && (n <=? 57))%N then Some (n - 48)%N
  else if ((97 <=? n) && (n <=? 102))%N then Some (n - 87)%N
  else None.

(** Decoder for the lowercase alphabet, the inverse used to state that
    [Bytes2Hex] loses nothing. *)
Fixpoint Hex2Bytes (s : string) : option bytes :=
  match s with
  | EmptyString => Some []
  | String _ EmptyString => None
  | String a (String b rest) =>
      match fromHexChar a, fromHexChar b, Hex2Bytes rest with
      | Some h, Some l, Some tl =>
          match Byte.of_N (16 * h + l) with
          | Some v => Some (v :: tl)
          | None => None
          end
      | _, _, _ => None
      end
  end.

(** [fmt]'s [%x] on a byte array and [%d] on a [uint64]. *)
Definition fmt_x (h : bytes) : string := hex_EncodeToString h.
Definition fmt_d (n : Z) : string := NilEmpty.string_of_uint (N.to_uint (Z.to_N n)).

(** ** Machine integers *)

Definition uint64_modulus : Z := 2 ^ 64.
Definition maxInt64 : Z := 2 ^ 63 - 1.
Definition minInt64 : Z := - 2 ^ 63.

(** The conversion [uint64(bn)] of an [int]: reduction modulo [2^64]. *)
Definition uint64 (n : Z) : Z := n mod uint64_modulus.

(** ** Errors *)

Inductive strconvErr := ErrSyntax | ErrRange.

(** The Go [error] values that occur: [*strconv.NumError], the result of
    [fmt.Errorf] (only its text survives, [%v] flattens the cause), and an
    error handed back by a collaborator, known by its text. *)
Inductive error :=
| NumError (Func Num : string) (Err : strconvErr)
| Errorf (msg : string)
| Raised (msg : string).

Definition strconvErr_text (e : strconvErr) : string :=
  match e with
  | ErrSyntax => "invalid syntax"
  | ErrRange => "value out of range"
  end.

(** [strconv.Quote], for strings of printable ASCII without quote or
    backslash, which pass through unescaped between two quote marks. *)
Definition quote_mark : string := String (ascii_of_nat 34) EmptyString.
Definition Quote (s : string) : string := (quote_mark ++ s ++ quote_mark)%string.

(** The [Error()] method. *)
Definition Error (e : error) : string :=
  match e with
  | NumError f n err =>
      ("strconv." ++ f ++ ": parsing " ++ Quote n ++ ": " ++ strconvErr_text err)%string
  | Errorf msg => msg
  | Raised msg => msg
  end.

(** ** [strconv.Atoi] *)

Definition digit_of (c : ascii) : option Z :=
  let n := Z.of_N (N_of_ascii c) in
  if (48 <=? n) && (n <=? 57) then Some (n - 48) else None.

(** Base-10 digits, most significant first; [None] on any other character. *)
Fixpoint parse_digits (acc : Z) (s : string) : option Z :=
  match s with
  | EmptyString => Some acc
  | String c rest =>
      match digit_of c with
      | Some d => parse_digits (10 * acc + d) rest
      | None => None
      end
  end.

Definition is_sign (c : ascii) : bool :=
  (Ascii.eqb c "-" || Ascii.eqb c "+")%bool.

(** [Atoi(s)] is [ParseInt(s, 10, 0)] as an [int] (64 bits): an optional
    sign, then at least one decimal digit; a value outside the [int] range is
    clamped and reported with [ErrRange]. *)
Definition Atoi (s : string) : Z * option error :=
  let syntax := (0, Some (NumError "Atoi" s ErrSyntax)) in
  match s with
  | EmptyString => syntax
  | String c rest =>
      let digits := if is_sign c then rest else s in
      match digits with
      | EmptyString => syntax
      | _ =>
          match parse_digits 0 digits with
          | None => syntax
          | Some un =>
              let n := if Ascii.eqb c "-" then - un else un in
              if n <? minInt64 then (minInt64, Some (NumError "Atoi" s ErrRange))
              else if maxInt64 <? n then (maxInt64, Some (NumError "Atoi" s ErrRange))
              else (n, None)
          end
      end
  end.

(** A height string as the entry point's contract wants it: decimal digits
    only, at least one. *)
Fixpoint all_digits (s : string) : bool :=
  match s with
  | EmptyString => true
  | String c rest =>
      match digit_of c with
      | Some _ => all_digits rest
      | None => false
      end
  end.

Definition is_nonneg_decimal (s : string) : bool :=
  match s with
  | EmptyString => false
  | _ => all_digits s
  end.

(** ** A small state monad

    [runBlock] mutates the objects it is handed; [Retrace] and the two store
    helpers only add to the log of collaborator calls.  Both are written in
    the same monad, at two state types. *)

Definition State (S A : Type) : Type := S -> A * S.

Definition ret {S A : Type} (a : A) : State S A := fun s => (a, s).

Definition bind {S A B : Type} (c : State S A) (k : A -> State S B) : State S B :=
  fun s => let (a, s') := c s in k a s'.

Definition gets {S A : Type} (f : S -> A) : State S A := fun s => (f s, s).

Definition modify {S : Type} (f : S -> S) : State S unit := fun s => (tt, f s).

Declare Scope monad_scope.
Delimit Scope monad_scope with monad.
Notation "x <- c ;; k" := (bind c (fun x => k))
  (at level 61, c at next level, right associativity) : monad_scope.
Notation "c ;; k" := (bind c (fun _ => k))
  (at level 61, right associativity) : monad_scope.
Local Open Scope monad_scope.

(** ** Data model *)

(** What [core/types], [core/state] and [params] leave opaque to this file:
    transactions and receipts are consumed and produced by the execution
    engine only; [Pending] is the overlay's set of pending mutations;
    [ForkSchedule] holds the settings of [params.ChainConfig] that the code
    here never inspects; [EIPContext] is the context value built by
    [WithEIPsFlags].  The key constants are those of [params] and [dbutils]. *)
Class ChainTypes : Type := {
  Transaction : Type;
  Receipt : Type;
  tx_Hash : Transaction -> bytes;
  Pending : Type;
  noPending : Pending;
  ForkSchedule : Type;
  noForks : ForkSchedule;
  EIPContext : Type;
  MainnetGenesisHash : bytes;
  RopstenGenesisHash : bytes;
  RinkebyGenesisHash : bytes;
  GoerliGenesisHash : bytes;
  ConfigPrefix : bytes
}.

(** [state.StateWriter], reduced to the two notifications the spec names:
    an account mutation and a storage mutation, each a key with its new
    value.  Neither can fail. *)
Class StateWriter (W : Type) : Type := {
  UpdateAccountData : W -> bytes -> bytes -> W;
  WriteAccountStorage : W -> bytes -> bytes -> W
}.

Inductive Mutation :=
| AccountMutation (key value : bytes)
| StorageMutation (key value : bytes).

Definition notify {W : Type} `{StateWriter W} (w : W) (mu : Mutation) : W :=
  match mu with
  | AccountMutation k v => UpdateAccountData w k v
  | StorageMutation k v => WriteAccountStorage w k v
  end.

(** Modelled from the spec: [state.NoopWriter] is not among the sources; the
    No-Op Sink "accepts account and storage mutation notifications and
    discards them; never fails", and is stateless. *)
Inductive NoopWriter := NewNoopWriter.

#[export] Instance NoopWriter_StateWriter : StateWriter NoopWriter := {
  UpdateAccountData w _ _ := w;
  WriteAccountStorage w _ _ := w
}.

(** [changeset.Change] and [changeset.ChangeSet], as [Retrace] reads them. *)
Record Change := { Key : bytes; Value : bytes }.
Record ChangeSet := { Changes : list Change }.

(** The block-scoped recorder as [Retrace] uses it: a write sink with a
    constructor and two accessors, each returning a change set and an error. *)
Class ChangeSetRecorder (W : Type) : Type := {
  recorder_sink :: StateWriter W;
  NewChangeSetWriter : W;
  GetAccountChanges : W -> ChangeSet * option error;
  GetStorageChanges : W -> ChangeSet * option error
}.

(** Modelled from the spec: [state.ChangeSetWriter] is not among the
    sources; the Change-Set Recorder "appends each first-seen key to an
    ordered log, updating the stored value on repeated writes to the same key
    without reordering", exposes the account and the storage change set as
    ordered sequences of (key, value) pairs, and never fails. *)
Fixpoint upsert (k v : bytes) (log : list Change) : list Change :=
  match log with
  | [] => [ {| Key := k; Value := v |} ]
  | c :: rest =>
      if bytes_eqb (Key c) k then {| Key := k; Value := v |} :: rest
      else c :: upsert k v rest
  end.

Record ChangeSetWriter := {
  accountChanges : list Change;
  storageChanges : list Change
}.

#[export] Instance ChangeSetWriter_StateWriter : StateWriter ChangeSetWriter := {
  UpdateAccountData w k v :=
    {| accountChanges := upsert k v (accountChanges w);
       storageChanges := storageChanges w |};
  WriteAccountStorage w k v :=
    {| accountChanges := accountChanges w;
       storageChanges := upsert k v (storageChanges w) |}
}.

#[export] Instance ChangeSetWriter_Recorder : ChangeSetRecorder ChangeSetWriter := {
  NewChangeSetWriter := {| accountChanges := []; storageChanges := [] |};
  GetAccountChanges w := ({| Changes := accountChanges w |}, None);
  GetStorageChanges w := ({| Changes := storageChanges w |}, None)
}.

(** The response of the entry point. *)
Record WritesReads := { Reads : list string; Writes : list string }.
Record RetraceResponse := { Storage : WritesReads; Account : WritesReads }.

(** [RetraceResponse{}]: every slice nil. *)
Definition WritesReads_zero : WritesReads := {| Reads := []; Writes := [] |}.
Definition RetraceResponse_zero : RetraceResponse :=
  {| Storage := WritesReads_zero; Account := WritesReads_zero |}.

Section Chain.
Context `{ChainTypes}.

(** [types.Header] and [types.Block]: the fields [runBlock] reads. *)
Record Header := { Number : Z; GasLimit : Z }.

Record Block := {
  header : Header;
  transactions : list Transaction;
  uncles : list Header
}.

Definition NumberU64 (b : Block) : Z := uint64 (Number (header b)).

(** [params.ChainConfig]: the two settings [runBlock] tests, and the rest. *)
Record ChainConfig := {
  DAOForkBlock : option Z;
  DAOForkSupport : bool;
  otherForks : ForkSchedule
}.

(** [var config params.ChainConfig]: the zero value. *)
Definition ChainConfig_zero : ChainConfig :=
  {| DAOForkBlock := None; DAOForkSupport := false; otherForks := noForks |}.

(** [ethdb.KV], seen through the two queries made on it.  [View] runs its
    closure on a read-only transaction and returns the closure's error; a
    transaction that cannot be opened is, to the callers here, the same as a
    query that fails.

    Modelled from the spec: [remotechain.GetBlockByNumber] is not among the
    sources; the block locator is "byHeight(height: uint64) -> Block |
    NotFound", a block or an error. *)
Record KV := {
  bucketGet : bytes -> bytes -> bytes * option error;
  blockByNumber : Z -> Block + error
}.

(** [NewRemoteContext(remoteDB)]: the chain context handed to the engine. *)
Record RemoteContext := NewRemoteContext { contextDB : KV }.

(** Modelled from the spec: the remote reader is not among the sources; the
    Historical State Reader is bound to a store and a fixed height, and
    "every successful lookup is appended to an internal per-store access log
    before the call returns", without deduplication. *)
Record RemoteReader := {
  readerDB : KV;
  blockNr : Z;
  accountReads : list bytes;
  storageReads : list bytes
}.

Definition NewRemoteReader (db : KV) (blockNr : Z) : RemoteReader :=
  {| readerDB := db; blockNr := blockNr; accountReads := []; storageReads := [] |}.

Inductive Access :=
| AccountRead (key : bytes)
| StorageRead (key : bytes).

Definition serve (r : RemoteReader) (a : Access) : RemoteReader :=
  match a with
  | AccountRead k =>
      {| readerDB := readerDB r; blockNr := blockNr r;
         accountReads := accountReads r ++ [k]; storageReads := storageReads r |}
  | StorageRead k =>
      {| readerDB := readerDB r; blockNr := blockNr r;
         accountReads := accountReads r; storageReads := storageReads r ++ [k] |}
  end.

Definition GetAccountReads (r : RemoteReader) : list bytes := accountReads r.
Definition GetStorageReads (r : RemoteReader) : list bytes := storageReads r.

(** [state.IntraBlockState], the overlay: pending mutations over a reader.
    In [Retrace] the variable [reader] and the reader inside the overlay are
    one object; the model keeps that object here and [Retrace] reads its logs
    through [stateReader]. *)
Record IntraBlockState := {
  stateReader : RemoteReader;
  pending : Pending
}.

(** [state.New(reader)]. *)
Definition state_New (r : RemoteReader) : IntraBlockState :=
  {| stateReader := r; pending := noPending |}.

(** What a collaborator did to the overlay during one call: the pending set
    it left, and the lookups that fell through to the reader, in order. *)
Record Touch := { touched : Pending; lookups : list Access }.

Definition absorb (s : IntraBlockState) (t : Touch) : IntraBlockState :=
  {| stateReader := fold_left serve (lookups t) (stateReader s);
     pending := touched t |}.

(** The outcome of one [core.ApplyTransaction] call: its effect on the
    overlay, the notifications sent to the per-transaction sink, the gas pool
    and used-gas counter it left, and the receipt or the error. *)
Record Applied := {
  ap_touch : Touch;
  ap_notes : list Mutation;
  ap_gp : Z;
  ap_usedGas : Z;
  ap_result : Receipt + error
}.

(** The collaborators: [encoding/json], [consensus/misc], [core], the
    [ethash] full-faker engine, [params] and the overlay's commit.  The
    arguments that are constants at the call site ([nil] author, empty
    [vm.Config], background context) are left out.  Each is a function of
    its arguments.  [json_Unmarshal data v] gives the value the decoder
    leaves in [v] and the error it returns; the others give their effect on
    the overlay as a [Touch] next to their results. *)
Class Collaborators : Type := {
  json_Unmarshal : bytes -> ChainConfig -> ChainConfig * option error;
  ApplyDAOHardFork : IntraBlockState -> Touch;
  ApplyTransaction :
    ChainConfig -> RemoteContext -> Z -> IntraBlockState -> Header ->
    Transaction -> Z -> Applied;
  FinalizeAndAssemble :
    ChainConfig -> Header -> IntraBlockState -> list Transaction ->
    list Header -> list Receipt -> Touch * (Block + error);
  WithEIPsFlags : ChainConfig -> Z -> EIPContext;
  CommitBlock : IntraBlockState -> EIPContext -> Touch * list Mutation * option error
}.

(** One entry of the log of collaborator calls: what was called, with the
    arguments that vary, and what came back: the receipt or error, and for
    the commit the notifications it sent to the block-scoped sink. *)
Inductive Call :=
| CallGet (bucket key : bytes)
| CallBlockByNumber (number : Z)
| CallApplyDAOHardFork
| CallApplyTransaction (chainConfig : ChainConfig) (tx : Transaction)
    (result : Receipt + error)
| CallFinalizeAndAssemble (chainConfig : ChainConfig) (s : IntraBlockState)
    (txs : list Transaction) (receipts : list Receipt) (err : option error)
| CallCommitBlock (s : IntraBlockState) (notes : list Mutation) (err : option error).

Definition Trace := list Call.

(** [new(core.GasPool).AddGas(amount)]; from an empty pool the addition
    cannot pass [2^64]. *)
Definition AddGas (gp amount : Z) : Z := gp + amount.

End Chain.

(** ** The orchestrator: [runBlock] *)

Section Orchestrator.
Context `{Collaborators}.
Context {TW BW : Type} `{StateWriter TW} `{StateWriter BW}.

(** The objects of one replay: the overlay (with the reader inside), the
    per-transaction and the block-scoped sink, [runBlock]'s gas pool,
    used-gas counter and receipts, and the log of collaborator calls. *)
Record Machine := {
  ibs : IntraBlockState;
  txnWriter : TW;
  blockWriter : BW;
  gp : Z;
  usedGas : Z;
  receipts : list Receipt;
  calls : Trace
}.

Definition log (c : Call) : State Machine unit :=
  modify (fun m =>
    {| ibs := ibs m; txnWriter := txnWriter m; blockWriter := blockWriter m;
       gp := gp m; usedGas := usedGas m; receipts := receipts m;
       calls := calls m ++ [c] |}).

Definition set_ibs (s : IntraBlockState) : State Machine unit :=
  modify (fun m =>
    {| ibs := s; txnWriter := txnWriter m; blockWriter := blockWriter m;
       gp := gp m; usedGas := usedGas m; receipts := receipts m;
       calls := calls m |}).

Definition set_txnWriter (w : TW) : State Machine unit :=
  modify (fun m =>
    {| ibs := ibs m; txnWriter := w; blockWriter := blockWriter m;
       gp := gp m; usedGas := usedGas m; receipts := receipts m;
       calls := calls m |}).

Definition set_blockWriter (w : BW) : State Machine unit :=
  modify (fun m =>
    {| ibs := ibs m; txnWriter := txnWriter m; blockWriter := w;
       gp := gp m; usedGas := usedGas m; receipts := receipts m;
       calls := calls m |}).

Definition set_gas (g u : Z) : State Machine unit :=
  modify (fun m =>
    {| ibs := ibs m; txnWriter := txnWriter m; blockWriter := blockWriter m;
       gp := g; usedGas := u; receipts := receipts m;
       calls := calls m |}).

Definition set_receipts (rs : list Receipt) : State Machine unit :=
  modify (fun m =>
    {| ibs := ibs m; txnWriter := txnWriter m; blockWriter := blockWriter m;
       gp := gp m; usedGas := usedGas m; receipts := rs;
       calls := calls m |}).

(** [misc.ApplyDAOHardFork(ibs)]. *)
Definition misc_ApplyDAOHardFork : State Machine unit :=
  s <- gets ibs ;;
  set_ibs (absorb s (ApplyDAOHardFork s)) ;;
  log CallApplyDAOHardFork.

(** [core.ApplyTransaction(chainConfig, bcb, nil, gp, ibs, txnWriter, header,
    tx, usedGas, vmConfig)]. *)
Definition core_ApplyTransaction (chainConfig : ChainConfig) (bcb : RemoteContext)
    (header : Header) (tx : Transaction) : State Machine (Receipt + error) :=
  s <- gets ibs ;;
  g <- gets gp ;;
  u <- gets usedGas ;;
  w <- gets txnWriter ;;
  let a := ApplyTransaction chainConfig bcb g s header tx u in
  set_ibs (absorb s (ap_touch a)) ;;
  set_txnWriter (fold_left notify (ap_notes a) w) ;;
  set_gas (ap_gp a) (ap_usedGas a) ;;
  log (CallApplyTransaction chainConfig tx (ap_result a)) ;;
  ret (ap_result a).

(** [engine.FinalizeAndAssemble(chainConfig, header, ibs, block.Transactions(),
    block.Uncles(), receipts)]; the assembled block is dropped by the caller. *)
Definition engine_FinalizeAndAssemble (chainConfig : ChainConfig)
    (header : Header) (txs : list Transaction) (uncles : list Header)
    (receipts : list Receipt) : State Machine (option error) :=
  s <- gets ibs ;;
  let (t, r) := FinalizeAndAssemble chainConfig header s txs uncles receipts in
  let err := match r with inl _ => None | inr e => Some e end in
  set_ibs (absorb s t) ;;
  log (CallFinalizeAndAssemble chainConfig s txs receipts err) ;;
  ret err.

(** [ibs.CommitBlock(ctx, blockWriter)]. *)
Definition ibs_CommitBlock (ctx : EIPContext) : State Machine (option error) :=
  s <- gets ibs ;;
  w <- gets blockWriter ;;
  let '(t, notes, err) := CommitBlock s ctx in
  set_ibs (absorb s t) ;;
  set_blockWriter (fold_left notify notes w) ;;
  log (CallCommitBlock s notes err) ;;
  ret err.

(** The loop [for _, tx := range block.Transactions()], with its early
    return. *)
Fixpoint forTransactions (chainConfig : ChainConfig) (bcb : RemoteContext)
    (header : Header) (txs : list Transaction) : State Machine (option error) :=
  match txs with
  | [] => ret None
  | tx :: rest =>
      r <- core_ApplyTransaction chainConfig bcb header tx ;;
      match r with
      | inr err =>
          ret (Some (Errorf ("tx " ++ fmt_x (tx_Hash tx) ++ " failed: " ++ Error err)%string))
      | inl receipt =>
          rs <- gets receipts ;;
          set_receipts (rs ++ [receipt]) ;;
          forTransactions chainConfig bcb header rest
      end
  end.

(** The test guarding the one-time transition:
    [chainConfig.DAOForkSupport && chainConfig.DAOForkBlock != nil &&
     chainConfig.DAOForkBlock.Cmp(block.Number()) == 0]. *)
Definition isDAOForkBlock (chainConfig : ChainConfig) (block : Block) : bool :=
  DAOForkSupport chainConfig &&
  match DAOForkBlock chainConfig with
  | Some n => n =? Number (header block)
  | None => false
  end.

Definition runBlock (chainConfig : ChainConfig) (bcb : RemoteContext)
    (block : Block) : State Machine (option error) :=
  let header := header block in
  set_gas (AddGas 0 (GasLimit header)) 0 ;;
  set_receipts [] ;;
  (if isDAOForkBlock chainConfig block then misc_ApplyDAOHardFork else ret tt) ;;
  failed <- forTransactions chainConfig bcb header (transactions block) ;;
  match failed with
  | Some err => ret (Some err)
  | None =>
      rs <- gets receipts ;;
      err <- engine_FinalizeAndAssemble chainConfig header (transactions block)
               (uncles block) rs ;;
      match err with
      | Some e =>
          ret (Some (Errorf ("finalize of block " ++ fmt_d (NumberU64 block)
                               ++ " failed: " ++ Error e)%string))
      | None =>
          let ctx := WithEIPsFlags chainConfig (Number header) in
          err <- ibs_CommitBlock ctx ;;
          match err with
          | Some e =>
              ret (Some (Errorf ("commiting block " ++ fmt_d (NumberU64 block)
                                   ++ " failed: " ++ Error e)%string))
          | None => ret None
          end
      end
  end.

End Orchestrator.

(** ** The entry point: [Retrace] and its two store helpers *)

Section EntryPoint.
Context `{Collaborators}.
Context {BW : Type} `{ChangeSetRecorder BW}.

Definition tell (c : Call) : State Trace unit := modify (fun t => t ++ [c]).

(** [db.View(ctx, f)]. *)
Definition View {A : Type} (db : KV) (f : KV -> State Trace A) : State Trace A :=
  f db.

Definition GetBlockByNumber (db : KV) (number : Z) : State Trace (Block + error) :=
  r <- View db (fun tx =>
         tell (CallBlockByNumber number) ;;
         ret (blockByNumber tx number)) ;;
  match r with
  | inr err => ret (inr err)
  | inl block => ret (inl block)
  end.

(** The [switch chain] of [ReadChainConfig]; [k] stays nil for any other
    name. *)
Definition genesisKey (chain : string) : bytes :=
  if (chain =? "mainnet")%string then MainnetGenesisHash
  else if (chain =? "testnet")%string then RopstenGenesisHash
  else if (chain =? "rinkeby")%string then RinkebyGenesisHash
  else if (chain =? "goerli")%string then GoerliGenesisHash
  else [].

Definition ReadChainConfig (db : KV) (chain : string) : State Trace ChainConfig :=
  let k := genesisKey chain in
  data <- View db (fun tx =>
            tell (CallGet ConfigPrefix k) ;;
            let (d, _) := bucketGet tx ConfigPrefix k in
            ret d) ;;
  let config := ChainConfig_zero in
  let (config, _) := json_Unmarshal data config in
  ret config.

(** The objects [Retrace] hands to [runBlock], with the call log so far. *)
Definition boot (s : IntraBlockState) (noOpWriter : NoopWriter) (writer : BW)
    (t : Trace) : Machine :=
  {| ibs := s; txnWriter := noOpWriter; blockWriter := writer;
     gp := 0; usedGas := 0; receipts := []; calls := t |}.

(** Runs an orchestrator step on freshly built objects and hands the
    objects back, the call log carried through. *)
Definition withMachine {A : Type} (m0 : Trace -> Machine)
    (c : State (@Machine _ NoopWriter BW) A) : State Trace (A * Machine) :=
  fun t => let (a, m) := c (m0 t) in ((a, m), calls m).

(** The loops [for _, ch := range ... { out = append(out, common.Bytes2Hex(..)) }]. *)
Definition appendKeys (out : list string) (changes : list Change) : list string :=
  fold_left (fun out ch => out ++ [Bytes2Hex (Key ch)]) changes out.

Definition appendReads (out : list string) (reads : list bytes) : list string :=
  fold_left (fun out ch => out ++ [Bytes2Hex ch]) reads out.

Definition Retrace (blockNumber chain : string) (remoteDB : KV)
  : State Trace (RetraceResponse * option error) :=
  chainConfig <- ReadChainConfig remoteDB chain ;;
  let noOpWriter := NewNoopWriter in
  let (bn, err) := Atoi blockNumber in
  match err with
  | Some e => ret (RetraceResponse_zero, Some e)
  | None =>
  r <- GetBlockByNumber remoteDB (uint64 bn) ;;
  let chainCtx := NewRemoteContext remoteDB in
  match r with
  | inr e => ret (RetraceResponse_zero, Some e)
  | inl block =>
  let writer := NewChangeSetWriter in
  let reader := NewRemoteReader remoteDB (uint64 bn) in
  let intraBlockState := state_New reader in
  ran <- withMachine (boot intraBlockState noOpWriter writer)
           (runBlock chainConfig chainCtx block) ;;
  let (err, m) := ran in
  match err with
  | Some e => ret (RetraceResponse_zero, Some e)
  | None =>
  let writer := blockWriter m in
  let reader := stateReader (ibs m) in
  let output := RetraceResponse_zero in
  let (accountChanges, _) := GetAccountChanges writer in
  match err with
  | Some e => ret (RetraceResponse_zero, Some e)
  | None =>
  let accountWrites := appendKeys (Writes (Account output)) (Changes accountChanges) in
  let accountReads := appendReads (Reads (Account output)) (GetAccountReads reader) in
  let (storageChanges, _) := GetStorageChanges writer in
  let storageWrites := appendKeys (Writes (Storage output)) (Changes storageChanges) in
  let storageReads := appendReads (Reads (Storage output)) (GetStorageReads reader) in
  ret ({| Storage := {| Reads := storageReads; Writes := storageWrites |};
          Account := {| Reads := accountReads; Writes := accountWrites |} |}, None)
  end end end end.

(** The run of the orchestrator that [Retrace] makes for a block found at
    the height parsed as [bn], the call log being [t] so far. *)
Definition replayOf (chainConfig : ChainConfig) (remoteDB : KV) (bn : Z)
    (block : Block) (t : Trace) : option error * @Machine _ NoopWriter BW :=
  runBlock chainConfig (NewRemoteContext remoteDB) block
    (boot (state_New (NewRemoteReader remoteDB (uint64 bn)))
       NewNoopWriter NewChangeSetWriter t).

(** The keys a machine has recorded, rendered: what a response is made of. *)
Definition responseOf (m : @Machine _ NoopWriter BW) : RetraceResponse :=
  {| Storage :=
       {| Reads := map Bytes2Hex (GetStorageReads (stateReader (ibs m)));
          Writes := map Bytes2Hex
                      (map Key (Changes (fst (GetStorageChanges (blockWriter m))))) |};
     Account :=
       {| Reads := map Bytes2Hex (GetAccountReads (stateReader (ibs m)));
          Writes := map Bytes2Hex
                      (map Key (Changes (fst (GetAccountChanges (blockWriter m))))) |} |}.

End EntryPoint.

(** ** Reading the log of calls *)

Section Observations.
Context `{ChainTypes}.

(** The phases of the orchestrator's state machine, and the store queries
    that precede them. *)
Inductive Phase :=
| StoreQuery
| Transition
| ApplyTx (tx : Transaction)
| Finalize
| Commit.

Definition phase_of (c : Call) : Phase :=
  match c with
  | CallGet _ _ => StoreQuery
  | CallBlockByNumber _ => StoreQuery
  | CallApplyDAOHardFork => Transition
  | CallApplyTransaction _ tx _ => ApplyTx tx
  | CallFinalizeAndAssemble _ _ _ _ _ => Finalize
  | CallCommitBlock _ _ _ => Commit
  end.

(** The order the state machine prescribes for a block. *)
Definition schedule (transition : bool) (txs : list Transaction) : list Phase :=
  (if transition then [Transition] else []) ++ map ApplyTx txs ++ [Finalize; Commit].

Definition is_transition (c : Call) : bool :=
  match c with CallApplyDAOHardFork => true | _ => false end.

Definition is_apply (c : Call) : bool :=
  match c with CallApplyTransaction _ _ _ => true | _ => false end.

Definition is_finalize (c : Call) : bool :=
  match c with CallFinalizeAndAssemble _ _ _ _ _ => true | _ => false end.

Definition is_commit (c : Call) : bool :=
  match c with CallCommitBlock _ _ _ => true | _ => false end.

Definition is_lookup (c : Call) : bool :=
  match c with CallBlockByNumber _ => true | _ => false end.

(** A call that came back with an error. *)
Definition failedCall (c : Call) : bool :=
  match c with
  | CallApplyTransaction _ _ (inr _) => true
  | CallFinalizeAndAssemble _ _ _ _ (Some _) => true
  | CallCommitBlock _ _ (Some _) => true
  | _ => false
  end.

(** The transactions handed to the engine, each with what came back. *)
Definition applied (t : Trace) : list (Transaction * (Receipt + error)) :=
  flat_map (fun c =>
    match c with
    | CallApplyTransaction _ tx r => [(tx, r)]
    | _ => []
    end) t.

(** The notifications sent to the block-scoped sink. *)
Definition committedNotes (t : Trace) : list Mutation :=
  flat_map (fun c =>
    match c with
    | CallCommitBlock _ notes _ => notes
    | _ => []
    end) t.

(** The configuration a call was given, when it takes one. *)
Definition usesConfig (chainConfig : ChainConfig) (c : Call) : Prop :=
  match c with
  | CallApplyTransaction cfg _ _ => cfg = chainConfig
  | CallFinalizeAndAssemble cfg _ _ _ _ => cfg = chainConfig
  | _ => True
  end.

(** The engine calls of a run in which every transaction of [txs] was
    accepted, with receipts [rs]. *)
Definition accepted (chainConfig : ChainConfig) (txs : list Transaction)
    (rs : list Receipt) : Trace :=
  map (fun p => CallApplyTransaction chainConfig (fst p) (inl (snd p))) (combine txs rs).

(** The text of the error for a rejected transaction. *)
Definition txFailed (tx : Transaction) (cause : error) : error :=
  Errorf ("tx " ++ fmt_x (tx_Hash tx) ++ " failed: " ++ Error cause)%string.

(** A replay fails when the height does not parse, or the block looked up
    is not found, or a call to the engine, to finalization or to the commit
    comes back with an error. *)
Definition replayFails (blockNumber : string) (remoteDB : KV) (evs : Trace) : Prop :=
  snd (Atoi blockNumber) <> None
  \/ (exists n e, In (CallBlockByNumber n) evs /\ blockByNumber remoteDB n = inr e)
  \/ existsb failedCall evs = true.

End Observations.

(** The calls a step added to the log. *)
Definition newCalls {X : Type} (before after : list X) : list X :=
  skipn (List.length before) after.

(** ** The shapes a run of [runBlock] can take *)

Section Runs.
Context `{Collaborators}.
Context {TW BW : Type} `{StateWriter TW} `{StateWriter BW}.

(** The statements of [runBlock] that precede the loop. *)
Definition enterLoop (chainConfig : ChainConfig) (block : Block)
  : State (@Machine _ TW BW) unit :=
  set_gas (AddGas 0 (GasLimit (header block))) 0 ;;
  set_receipts [] ;;
  (if isDAOForkBlock chainConfig block then misc_ApplyDAOHardFork else ret tt).

(** The calls made before the loop. *)
Definition opening (chainConfig : ChainConfig) (block : Block) : Trace :=
  if isDAOForkBlock chainConfig block then [CallApplyDAOHardFork] else [].

Definition finalizeFailed (block : Block) (cause : error) : error :=
  Errorf ("finalize of block " ++ fmt_d (NumberU64 block) ++ " failed: " ++ Error cause)%string.

Definition commitFailed (block : Block) (cause : error) : error :=
  Errorf ("commiting block " ++ fmt_d (NumberU64 block) ++ " failed: " ++ Error cause)%string.

(** A run from machine [m] either stops at a rejected transaction, or
    stops at a failed finalization, or reaches the commit.  [m2] is the
    machine the loop leaves. *)
Inductive RunShape (chainConfig : ChainConfig) (bcb : RemoteContext) (block : Block)
    (m : @Machine _ TW BW) : option error -> @Machine _ TW BW -> Prop :=
| RunTxRejected (pre post : list Transaction) (tx : Transaction) (cause : error) m2 :
    forTransactions chainConfig bcb (header block) (transactions block)
      (snd (enterLoop chainConfig block m)) = (Some (txFailed tx cause), m2) ->
    transactions block = pre ++ tx :: post ->
    List.length (receipts m2) = List.length pre ->
    blockWriter m2 = blockWriter m ->
    calls m2 = calls m ++ opening chainConfig block
                 ++ accepted chainConfig pre (receipts m2)
                 ++ [CallApplyTransaction chainConfig tx (inr cause)] ->
    RunShape chainConfig bcb block m (Some (txFailed tx cause)) m2
| RunFinalizeFailed (cause : error) m2 m3 :
    forTransactions chainConfig bcb (header block) (transactions block)
      (snd (enterLoop chainConfig block m)) = (None, m2) ->
    List.length (receipts m2) = List.length (transactions block) ->
    receipts m3 = receipts m2 ->
    blockWriter m3 = blockWriter m ->
    calls m3 = calls m ++ opening chainConfig block
                 ++ accepted chainConfig (transactions block) (receipts m2)
                 ++ [CallFinalizeAndAssemble chainConfig (ibs m2) (transactions block)
                       (receipts m2) (Some cause)] ->
    RunShape chainConfig bcb block m (Some (finalizeFailed block cause)) m3
| RunCommitted (s : IntraBlockState) (notes : list Mutation) (failed : option error) m2 m3 :
    forTransactions chainConfig bcb (header block) (transactions block)
      (snd (enterLoop chainConfig block m)) = (None, m2) ->
    List.length (receipts m2) = List.length (transactions block) ->
    receipts m3 = receipts m2 ->
    blockWriter m3 = fold_left notify notes (blockWriter m) ->
    s = absorb (ibs m2)
          (fst (FinalizeAndAssemble chainConfig (header block) (ibs m2)
                  (transactions block) (uncles block) (receipts m2))) ->
    calls m3 = calls m ++ opening chainConfig block
                 ++ accepted chainConfig (transactions block) (receipts m2)
                 ++ [CallFinalizeAndAssemble chainConfig (ibs m2) (transactions block)
                       (receipts m2) None;
                     CallCommitBlock s notes failed] ->
    RunShape chainConfig bcb block m (option_map (commitFailed block) failed) m3.

(** The machine [m] with the call log replaced. *)
Definition recall (t : Trace) (m : @Machine _ TW BW) : @Machine _ TW BW :=
  {| ibs := ibs m; txnWriter := txnWriter m; blockWriter := blockWriter m;
     gp := gp m; usedGas := usedGas m; receipts := receipts m; calls := t |}.

(** A step that never looks at the call log: its result, the objects it
    leaves and the calls it adds are the same whatever was logged before. *)
Definition Oblivious {A : Type} (c : State (@Machine _ TW BW) A) : Prop :=
  forall m, exists a m' evs, forall t, c (recall t m) = (a, recall (t ++ evs) m').

End Runs.

(** ** Reading the write log *)

Definition accountWrites (notes : list Mutation) : list (bytes * bytes) :=
  flat_map (fun mu =>
    match mu with
    | AccountMutation k v => [(k, v)]
    | StorageMutation _ _ => []
    end) notes.

Definition storageWrites (notes : list Mutation) : list (bytes * bytes) :=
  flat_map (fun mu =>
    match mu with
    | AccountMutation _ _ => []
    | StorageMutation k v => [(k, v)]
    end) notes.

(** The keys of a sequence of writes, each once, in the order of their
    first write. *)
Fixpoint firstSeen (ks : list bytes) : list bytes :=
  match ks with
  | [] => []
  | k :: rest => k :: filter (fun k' => negb (bytes_eqb k' k)) (firstSeen rest)
  end.

(** The value of the last write to [k], if [k] was written at all. *)
Fixpoint lastValue (k : bytes) (ws : list (bytes * bytes)) : option bytes :=
  match ws with
  | [] => None
  | (k', v) :: rest =>
      match lastValue k rest with
      | Some v' => Some v'
      | None => if bytes_eqb k' k then Some v else None
      end
  end.

(** Index of the first write to [k]. *)
Fixpoint firstIndex (k : bytes) (ks : list bytes) : option nat :=
  match ks with
  | [] => None
  | k' :: rest =>
      if bytes_eqb k' k then Some O
      else option_map S (firstIndex k rest)
  end.

(** What a write log owes to the sequence of writes [ws] it records: no
    key twice; the keys in the order of their first writes; an entry sits at
    the position given by the number of distinct keys written before its
    key's first write; and it holds the value of the last write to its key. *)
Definition faithfulLog (ws : list (bytes * bytes)) (entries : list Change) : Prop :=
  NoDup (map Key entries)
  /\ map Key entries = firstSeen (map fst ws)
  /\ (forall i c, nth_error entries i = Some c ->
        exists j, firstIndex (Key c) (map fst ws) = Some j
                  /\ i = List.length (firstSeen (firstn j (map fst ws))))
  /\ (forall c, In c entries -> lastValue (Key c) ws = Some (Value c)).

(** A string made of the characters [0-9a-f] only. *)
Fixpoint lowerHex (s : string) : bool :=
  match s with
  | EmptyString => true
  | String c rest =>
      match fromHexChar c with
      | Some _ => lowerHex rest
      | None => false
      end
  end.

(** The log built by a sequence of writes, oldest first. *)
Definition recordAll (ws : list (bytes * bytes)) (log : list Change) : list Change :=
  fold_left (fun log w => upsert (fst w) (snd w) log) ws log.

(** ** A small chain to run the model on

    Transactions and receipts are integers.  A positive transaction is
    accepted: it reads and writes the account whose key is its parity and
    leaves itself as receipt; any other is rejected.  Finalization pays a
    reward to the coinbase and fails on block 13; the commit flushes the
    pending mutations in order and fails on block 14. *)

Definition byteOf (n : Z) : byte :=
  match Byte.of_N (Z.to_N (n mod 256)) with
  | Some b => b
  | None => x00
  end.

Definition demoTypes : ChainTypes := {|
  Transaction := Z;
  Receipt := Z;
  tx_Hash := fun tx => [byteOf tx; xab];
  Pending := list Mutation;
  noPending := [];
  ForkSchedule := unit;
  noForks := tt;
  EIPContext := Z;
  MainnetGenesisHash := [xd4; xe5];
  RopstenGenesisHash := [x41; x94];
  RinkebyGenesisHash := [x63; x41];
  GoerliGenesisHash := [xbf; x7e];
  ConfigPrefix := list_byte_of_string "config"
|}.

Definition demoCoinbase : bytes := [xc0].
Definition demoRefund : bytes := [xda].

(** [{"daoForkSupport":true,"daoForkBlock":5}]. *)
Definition demoConfigJSON : bytes :=
  list_byte_of_string
    ("{" ++ quote_mark ++ "daoForkSupport" ++ quote_mark ++ ":true,"
         ++ quote_mark ++ "daoForkBlock" ++ quote_mark ++ ":5}")%string.

(** [{"daoForkBlock":5,"daoForkSupport":"yes"}]: well-formed JSON whose
    second member is a string where the field is a [bool].  [encoding/json]
    documents that for a value "not appropriate for a given target type" it
    "skips that field and completes the unmarshaling as best it can" and
    returns an [UnmarshalTypeError]: the first member has been stored. *)
Definition demoTornJSON : bytes :=
  list_byte_of_string
    ("{" ++ quote_mark ++ "daoForkBlock" ++ quote_mark ++ ":5,"
         ++ quote_mark ++ "daoForkSupport" ++ quote_mark ++ ":"
         ++ quote_mark ++ "yes" ++ quote_mark ++ "}")%string.

Definition demoUnmarshal (data : bytes) (config : @ChainConfig demoTypes)
  : @ChainConfig demoTypes * option error :=
  if bytes_eqb data demoConfigJSON then
    ({| DAOForkBlock := Some 5; DAOForkSupport := true;
        otherForks := otherForks config |}, None)
  else if bytes_eqb data demoTornJSON then
    ({| DAOForkBlock := Some 5; DAOForkSupport := DAOForkSupport config;
        otherForks := otherForks config |},
     Some (Raised "json: cannot unmarshal string into Go struct field ChainConfig.daoForkSupport of type bool"))
  else (config, Some (Raised "unexpected end of JSON input")).

Definition demoApply (s : @IntraBlockState demoTypes) (g u : Z) (tx : Z)
  : @Applied demoTypes :=
  let k := [byteOf (tx mod 2)] in
  if 0 <? tx then
    {| ap_touch := {| touched := (pending s ++ [AccountMutation k [byteOf tx]]) : @Pending demoTypes;
                      lookups := [AccountRead k] |};
       ap_notes := [AccountMutation k [byteOf tx]];
       ap_gp := g - 21000;
       ap_usedGas := u + 21000;
       ap_result := inl tx |}
  else
    {| ap_touch := {| touched := pending s; lookups := [AccountRead k] |};
       ap_notes := [];
       ap_gp := g;
       ap_usedGas := u;
       ap_result := inr (Raised "nonce too low") |}.

Definition demoCollaborators : @Collaborators demoTypes := {|
  json_Unmarshal := demoUnmarshal;
  ApplyDAOHardFork := fun s =>
    {| touched := (pending s ++ [AccountMutation demoRefund [x01]]) : @Pending demoTypes;
       lookups := [AccountRead demoRefund] |};
  ApplyTransaction := fun _ _ g s _ tx u => demoApply s g u tx;
  FinalizeAndAssemble := fun _ hd s txs us _ =>
    if Number hd =? 13 then
      ({| touched := pending s; lookups := [] |}, inr (Raised "invalid uncle"))
    else
      ({| touched := (pending s ++ [AccountMutation demoCoinbase [x02];
                                    StorageMutation demoCoinbase [x03]]) : @Pending demoTypes;
          lookups := [AccountRead demoCoinbase; StorageRead demoCoinbase] |},
       inl {| header := hd; transactions := txs; uncles := us |});
  WithEIPsFlags := fun _ n => n;
  CommitBlock := fun s ctx =>
    if (ctx : Z) =? 14 then
      ({| touched := pending s; lookups := [] |}, [], Some (Raised "sink closed"))
    else
      ({| touched := pending s; lookups := [] |}, (pending s : list Mutation), None)
|}.

Definition demoBlock (number : Z) (txs : list Z) : @Block demoTypes :=
  @Build_Block demoTypes {| Number := number; GasLimit := 8000000 |} txs [].

(** A store with the mainnet configuration, a torn ropsten configuration,
    and blocks 0, 5, 6, 13 and 14. *)
Definition demoDB : @KV demoTypes := {|
  bucketGet := fun bucket key =>
    if bytes_eqb bucket (@ConfigPrefix demoTypes) then
      if bytes_eqb key (@MainnetGenesisHash demoTypes) then (demoConfigJSON, None)
      else if bytes_eqb key (@RopstenGenesisHash demoTypes) then (demoTornJSON, None)
      else ([], None)
    else ([], Some (Raised "no such bucket"));
  blockByNumber := fun n =>
    if n =? 0 then inl (demoBlock 0 [])
    else if n =? 5 then inl (demoBlock 5 [1; 2; 3])
    else if n =? 6 then inl (demoBlock 6 [1; 0; 2])
    else if n =? 13 then inl (demoBlock 13 [1])
    else if n =? 14 then inl (demoBlock 14 [1])
    else inr (Raised "block not found")
|}.

(** A recorder whose accessors report an error, next to the sets they did
    build. *)
Record FaultyRecorder := { faulty : ChangeSetWriter }.

Definition FaultyRecorder_StateWriter : StateWriter FaultyRecorder := {|
  UpdateAccountData := fun w k v => {| faulty := UpdateAccountData (faulty w) k v |};
  WriteAccountStorage := fun w k v => {| faulty := WriteAccountStorage (faulty w) k v |}
|}.

Definition FaultyRecorder_Recorder : ChangeSetRecorder FaultyRecorder := {|
  recorder_sink := FaultyRecorder_StateWriter;
  NewChangeSetWriter := {| faulty := NewChangeSetWriter |};
  GetAccountChanges := fun w =>
    ({| Changes := accountChanges (faulty w) |}, Some (Raised "account change set"));
  GetStorageChanges := fun w =>
    ({| Changes := storageChanges (faulty w) |}, Some (Raised "storage change set"))
|}.

(** [Retrace] on the small chain, with the recorder of the spec and with
    the faulty one. *)
Definition demoRetrace (blockNumber chain : string)
  : RetraceResponse * option error * @Trace demoTypes :=
  @Retrace demoTypes demoCollaborators ChangeSetWriter ChangeSetWriter_Recorder
    blockNumber chain demoDB [].

Definition demoFaultyRetrace (blockNumber chain : string)
  : RetraceResponse * option error * @Trace demoTypes :=
  @Retrace demoTypes demoCollaborators FaultyRecorder FaultyRecorder_Recorder
    blockNumber chain demoDB [].

(** The mainnet configuration of the small chain, and the one the torn
    ropsten entry decodes to: the same fork height, the fork not supported. *)
Definition demoMainnet : @ChainConfig demoTypes :=
  @Build_ChainConfig demoTypes (Some 5) true tt.

Definition demoClassic : @ChainConfig demoTypes :=
  @Build_ChainConfig demoTypes (Some 5) false tt.

(** The objects [Retrace] builds for height 5, and a run on them. *)
Definition demoMachine : @Machine demoTypes NoopWriter ChangeSetWriter :=
  @boot demoTypes ChangeSetWriter
    (state_New (NewRemoteReader demoDB 5)) NewNoopWriter NewChangeSetWriter [].

Definition demoRun (chainConfig : @ChainConfig demoTypes) (block : @Block demoTypes)
  : option error * @Machine demoTypes NoopWriter ChangeSetWriter :=
  @runBlock demoTypes demoCollaborators NoopWriter ChangeSetWriter _ _
    chainConfig (NewRemoteContext demoDB) block demoMachine.

(** The response for block 5 of the small chain. *)
Definition demoResponse5 : RetraceResponse :=
  {| Storage := {| Reads := ["c0"]; Writes := ["c0"] |};
     Account := {| Reads := ["da"; "01"; "00"; "01"; "c0"];
                   Writes := ["da"; "01"; "00"; "c0"] |} |}.

(** ** The HTTP handler: [GetWritesReads]

    [gin.Params] is the ordered list of URL parameters; [c.Param(key)] is
    [Params.ByName]: the value of the first entry whose key matches, the
    empty string when there is none. *)

Definition Params := list (string * string).

Fixpoint Param (ps : Params) (key : string) : string :=
  match ps with
  | [] => EmptyString
  | (k, v) :: rest => if (k =? key)%string then v else Param rest key
  end.

Definition StatusOK : Z := 200.
Definition StatusInternalServerError : Z := 500.

(** What the handler does to the gin context: [c.AbortWithError(code, err)],
    which records the error and writes no body, or [c.JSON(code, obj)]. *)
Inductive Reply :=
| AbortWithError (code : Z) (err : error)
| JSON (code : Z) (obj : RetraceResponse).

Definition statusOf (r : Reply) : Z :=
  match r with
  | AbortWithError code _ => code
  | JSON code _ => code
  end.

Section Handler.
Context `{Collaborators}.
Context {BW : Type} `{ChangeSetRecorder BW}.

(** [Env], of which the handler reads [e.DB]. *)
Record Env := { DB : KV }.

Definition GetWritesReads (e : Env) (c : Params) : State Trace Reply :=
  r <- Retrace (BW := BW) (Param c "number") (Param c "chain") (DB e) ;;
  let (results, err) := r in
  match err with
  | Some err => ret (AbortWithError StatusInternalServerError err)
  | None => ret (JSON StatusOK results)
  end.

End Handler.

Section StoreCalls.
Context `{ChainTypes}.


(** A call that is a query on the store. *)
Definition is_store (c : Call) : bool :=
  match c with
  | CallGet _ _ => true
  | CallBlockByNumber _ => true
  | _ => false
  end.

End StoreCalls.

(** The handler on the small chain. *)
Definition demoGetWritesReads (c : Params) : Reply * @Trace demoTypes :=
  @GetWritesReads demoTypes demoCollaborators ChangeSetWriter ChangeSetWriter_Recorder
    {| DB := demoDB |} c [].

(** * Properties *)

(** ** Hexadecimal rendering *)

Lemma hex_pair_decodes (v : byte) :
  fromHexChar (hexdigit (N.shiftr (Byte.to_N v) 4)) = Some (N.shiftr (Byte.to_N v) 4)
  /\ fromHexChar (hexdigit (N.land (Byte.to_N v) 15)) = Some (N.land (Byte.to_N v) 15)
  /\ Byte.of_N (16 * N.shiftr (Byte.to_N v) 4 + N.land (Byte.to_N v) 15) = Some v.
Proof. destruct v; repeat split; reflexivity. Qed.

Lemma Hex2Bytes_Bytes2Hex (d : bytes) : Hex2Bytes (Bytes2Hex d) = Some d.
Proof.
  unfold Bytes2Hex.
  induction d as [|v d IH]; [reflexivity|].
  destruct (hex_pair_decodes v) as (Hh & Hl & Hv).
  cbn [hex_EncodeToString Hex2Bytes].
  rewrite Hh, Hl, IH, Hv. reflexivity.
Qed.

Lemma Bytes2Hex_length (d : bytes) :
  String.length (Bytes2Hex d) = (2 * List.length d)%nat.
Proof.
  unfold Bytes2Hex.
  induction d as [|v d IH]; [reflexivity|].
  cbn [hex_EncodeToString String.length List.length]. rewrite IH. lia.
Qed.

Lemma Bytes2Hex_lowerHex (d : bytes) : lowerHex (Bytes2Hex d) = true.
Proof.
  unfold Bytes2Hex.
  induction d as [|v d IH]; [reflexivity|].
  destruct (hex_pair_decodes v) as (Hh & Hl & _).
  cbn [hex_EncodeToString lowerHex]. rewrite Hh, Hl. exact IH.
Qed.

(** The append loops build the mapped list. *)
Lemma appendKeys_map (out : list string) (changes : list Change) :
  appendKeys out changes = out ++ map (fun ch => Bytes2Hex (Key ch)) changes.
Proof.
  unfold appendKeys. revert out.
  induction changes as [|c cs IH]; intros out; cbn [fold_left map].
  - now rewrite app_nil_r.
  - rewrite IH, <- app_assoc. reflexivity.
Qed.

Lemma appendReads_map (out : list string) (reads : list bytes) :
  appendReads out reads = out ++ map Bytes2Hex reads.
Proof.
  unfold appendReads. revert out.
  induction reads as [|c cs IH]; intros out; cbn [fold_left map].
  - now rewrite app_nil_r.
  - rewrite IH, <- app_assoc. reflexivity.
Qed.

(** ** The recorder *)

Lemma bytes_eqb_eq (a b : bytes) : bytes_eqb a b = true <-> a = b.
Proof.
  unfold bytes_eqb. destruct (list_eq_dec byte_eq_dec a b); split; congruence.
Qed.

Lemma bytes_eqb_neq (a b : bytes) : bytes_eqb a b = false <-> a <> b.
Proof.
  unfold bytes_eqb. destruct (list_eq_dec byte_eq_dec a b); split; congruence.
Qed.

Lemma bytes_eqb_refl (a : bytes) : bytes_eqb a a = true.
Proof. now apply bytes_eqb_eq. Qed.

Lemma upsert_keys_seen k v log :
  In k (map Key log) -> map Key (upsert k v log) = map Key log.
Proof.
  induction log as [|c log IH]; cbn [upsert map In]; [tauto|].
  intros Hin. destruct (bytes_eqb (Key c) k) eqn:E.
  - apply bytes_eqb_eq in E. cbn. now rewrite E.
  - apply bytes_eqb_neq in E. cbn. f_equal. apply IH. tauto.
Qed.

Lemma upsert_keys_fresh k v log :
  ~ In k (map Key log) -> map Key (upsert k v log) = map Key log ++ [k].
Proof.
  induction log as [|c log IH]; cbn [upsert map In]; [reflexivity|].
  intros Hin. destruct (bytes_eqb (Key c) k) eqn:E.
  - apply bytes_eqb_eq in E. tauto.
  - cbn. f_equal. apply IH. tauto.
Qed.

Lemma upsert_find k v k' log :
  find (fun c => bytes_eqb (Key c) k') (upsert k v log) =
  if bytes_eqb k k' then Some {| Key := k; Value := v |}
  else find (fun c => bytes_eqb (Key c) k') log.
Proof.
  induction log as [|c log IH]; cbn [upsert find].
  - cbn [Key]. destruct (bytes_eqb k k'); reflexivity.
  - destruct (bytes_eqb (Key c) k) eqn:E.
    + apply bytes_eqb_eq in E. subst k. cbn [find Key].
      destruct (bytes_eqb (Key c) k'); reflexivity.
    + cbn [find]. destruct (bytes_eqb (Key c) k') eqn:E'.
      * apply bytes_eqb_eq in E'. subst k'.
        apply bytes_eqb_neq in E.
        assert (bytes_eqb k (Key c) = false) as -> by (apply bytes_eqb_neq; congruence).
        reflexivity.
      * exact IH.
Qed.

Lemma In_firstSeen k ks : In k (firstSeen ks) <-> In k ks.
Proof.
  induction ks as [|a ks IH]; cbn [firstSeen In]; [tauto|].
  rewrite filter_In, IH.
  destruct (list_eq_dec byte_eq_dec a k) as [->|Hne]; [tauto|].
  split; [tauto|]. intros [Ha|Hk]; [tauto|]. right. split; [exact Hk|].
  apply negb_true_iff, bytes_eqb_neq. congruence.
Qed.

Lemma NoDup_firstSeen ks : NoDup (firstSeen ks).
Proof.
  induction ks as [|a ks IH]; cbn [firstSeen]; constructor.
  - rewrite filter_In, bytes_eqb_refl. cbn. intros [_ Hf]. discriminate.
  - now apply NoDup_filter.
Qed.

Lemma firstSeen_snoc_seen k ks : In k ks -> firstSeen (ks ++ [k]) = firstSeen ks.
Proof.
  induction ks as [|a ks IH]; cbn [In]; [tauto|].
  intros Hin. cbn [app firstSeen]. f_equal.
  destruct (in_dec (list_eq_dec byte_eq_dec) k ks) as [Hk|Hk].
  - now rewrite IH.
  - destruct Hin as [->|]; [|tauto].
    assert (firstSeen (ks ++ [k]) = firstSeen ks ++ [k]) as ->.
    { clear IH. induction ks as [|b ks IH]; [reflexivity|].
      cbn [app firstSeen]. f_equal. rewrite IH by (cbn in Hk; tauto).
      rewrite filter_app. cbn [filter].
      assert (bytes_eqb k b = false) as ->
        by (apply bytes_eqb_neq; cbn in Hk; intros ->; tauto).
      reflexivity. }
    rewrite filter_app. cbn [filter]. rewrite bytes_eqb_refl. cbn.
    now rewrite app_nil_r.
Qed.

Lemma firstSeen_snoc_fresh k ks : ~ In k ks -> firstSeen (ks ++ [k]) = firstSeen ks ++ [k].
Proof.
  induction ks as [|b ks IH]; [reflexivity|].
  intros Hk. cbn [app firstSeen]. f_equal. rewrite IH by (cbn in Hk; tauto).
  rewrite filter_app. cbn [filter].
  assert (bytes_eqb k b = false) as ->
    by (apply bytes_eqb_neq; cbn in Hk; intros ->; tauto).
  reflexivity.
Qed.

Lemma lastValue_snoc k k' v ws :
  lastValue k (ws ++ [(k', v)]) = if bytes_eqb k' k then Some v else lastValue k ws.
Proof.
  induction ws as [|[a x] ws IH]; cbn [app lastValue].
  - reflexivity.
  - rewrite IH. destruct (bytes_eqb k' k); [reflexivity|].
    reflexivity.
Qed.

Lemma recordAll_snoc ws k v log :
  recordAll (ws ++ [(k, v)]) log = upsert k v (recordAll ws log).
Proof. unfold recordAll. now rewrite fold_left_app. Qed.

Lemma recordAll_keys ws : map Key (recordAll ws []) = firstSeen (map fst ws).
Proof.
  induction ws as [|[k v] ws IH] using rev_ind; [reflexivity|].
  rewrite recordAll_snoc, map_app. cbn [map fst].
  destruct (in_dec (list_eq_dec byte_eq_dec) k (map fst ws)) as [Hk|Hk].
  - rewrite firstSeen_snoc_seen by exact Hk.
    rewrite upsert_keys_seen; [exact IH|]. rewrite IH. now apply In_firstSeen.
  - rewrite firstSeen_snoc_fresh by exact Hk.
    rewrite upsert_keys_fresh; [now rewrite IH|]. rewrite IH, In_firstSeen. exact Hk.
Qed.

Lemma recordAll_find ws k :
  option_map Value (find (fun c => bytes_eqb (Key c) k) (recordAll ws [])) = lastValue k ws.
Proof.
  induction ws as [|[k' v] ws IH] using rev_ind; [reflexivity|].
  rewrite recordAll_snoc, upsert_find, lastValue_snoc.
  destruct (bytes_eqb k' k); [reflexivity|exact IH].
Qed.

Lemma recordAll_value ws c :
  In c (recordAll ws []) -> lastValue (Key c) ws = Some (Value c).
Proof.
  intros Hin. rewrite <- recordAll_find.
  assert (NoDup (map Key (recordAll ws []))) as Hnd
    by (rewrite recordAll_keys; apply NoDup_firstSeen).
  revert Hin Hnd. generalize (recordAll ws []) as entries.
  induction entries as [|d entries IH]; cbn [In map find]; [tauto|].
  intros Hin Hnd. inversion Hnd as [|? ? Hd Hnd']; subst.
  destruct Hin as [->|Hin].
  - now rewrite bytes_eqb_refl.
  - destruct (bytes_eqb (Key d) (Key c)) eqn:E.
    + apply bytes_eqb_eq in E. exfalso. apply Hd. rewrite E. now apply in_map.
    + now apply IH.
Qed.

Lemma notify_all_recorder notes (w : ChangeSetWriter) :
  fold_left notify notes w =
  {| accountChanges := recordAll (accountWrites notes) (accountChanges w);
     storageChanges := recordAll (storageWrites notes) (storageChanges w) |}.
Proof.
  revert w. induction notes as [|mu notes IH]; intros w.
  - now destruct w.
  - cbn [fold_left]. rewrite IH. destruct mu; reflexivity.
Qed.

(** ** The orchestrator, step by step *)

Section OrchestratorFacts.
Context `{Collaborators}.
Context {TW BW : Type} `{StateWriter TW} `{StateWriter BW}.

Lemma newCalls_app {X : Type} (t evs : list X) : newCalls t (t ++ evs) = evs.
Proof.
  unfold newCalls. rewrite skipn_app, skipn_all, Nat.sub_diag. reflexivity.
Qed.

Lemma accepted_phases chainConfig txs rs :
  List.length rs = List.length txs ->
  map phase_of (accepted chainConfig txs rs) = map ApplyTx txs.
Proof.
  unfold accepted. revert rs.
  induction txs as [|tx txs IH]; intros [|r rs] Hlen; try discriminate; [reflexivity|].
  cbn [combine map phase_of fst]. f_equal. apply IH. now injection Hlen.
Qed.

Lemma accepted_applied chainConfig txs rs :
  List.length rs = List.length txs ->
  applied (accepted chainConfig txs rs) = combine txs (map inl rs).
Proof.
  unfold accepted. revert rs.
  induction txs as [|tx txs IH]; intros [|r rs] Hlen; try discriminate; [reflexivity|].
  cbn [combine map applied flat_map fst snd app]. f_equal. apply IH. now injection Hlen.
Qed.

Lemma applied_app (t u : Trace) : applied (t ++ u) = applied t ++ applied u.
Proof. unfold applied. apply flat_map_app. Qed.

Lemma committedNotes_app (t u : Trace) :
  committedNotes (t ++ u) = committedNotes t ++ committedNotes u.
Proof. unfold committedNotes. apply flat_map_app. Qed.

Lemma accepted_quiet chainConfig txs rs :
  committedNotes (accepted chainConfig txs rs) = []
  /\ existsb failedCall (accepted chainConfig txs rs) = false
  /\ existsb is_transition (accepted chainConfig txs rs) = false
  /\ existsb is_finalize (accepted chainConfig txs rs) = false
  /\ existsb is_commit (accepted chainConfig txs rs) = false
  /\ existsb is_lookup (accepted chainConfig txs rs) = false
  /\ Forall (usesConfig chainConfig) (accepted chainConfig txs rs).
Proof.
  unfold accepted. generalize (combine txs rs) as ps.
  induction ps as [|p ps (I1 & I2 & I3 & I4 & I5 & I6 & I7)]; cbn.
  - repeat split; constructor.
  - repeat split; try assumption. constructor; [reflexivity|assumption].
Qed.

(** The three collaborator calls, as functions of the machine. *)
Lemma core_ApplyTransaction_run chainConfig bcb hd tx (m : @Machine _ TW BW) :
  let a := ApplyTransaction chainConfig bcb (gp m) (ibs m) hd tx (usedGas m) in
  core_ApplyTransaction chainConfig bcb hd tx m =
  (ap_result a,
   {| ibs := absorb (ibs m) (ap_touch a);
      txnWriter := fold_left notify (ap_notes a) (txnWriter m);
      blockWriter := blockWriter m;
      gp := ap_gp a; usedGas := ap_usedGas a;
      receipts := receipts m;
      calls := calls m ++ [CallApplyTransaction chainConfig tx (ap_result a)] |}).
Proof. reflexivity. Qed.

Lemma engine_FinalizeAndAssemble_run chainConfig hd txs us rs (m : @Machine _ TW BW) :
  let out := FinalizeAndAssemble chainConfig hd (ibs m) txs us rs in
  let err := match snd out with inl _ => None | inr e => Some e end in
  engine_FinalizeAndAssemble chainConfig hd txs us rs m =
  (err,
   {| ibs := absorb (ibs m) (fst out);
      txnWriter := txnWriter m; blockWriter := blockWriter m;
      gp := gp m; usedGas := usedGas m; receipts := receipts m;
      calls := calls m ++ [CallFinalizeAndAssemble chainConfig (ibs m) txs rs err] |}).
Proof.
  unfold engine_FinalizeAndAssemble, bind, gets. cbn.
  destruct (FinalizeAndAssemble chainConfig hd (ibs m) txs us rs) as [t r].
  reflexivity.
Qed.

Lemma ibs_CommitBlock_run ctx (m : @Machine _ TW BW) :
  let out := CommitBlock (ibs m) ctx in
  ibs_CommitBlock ctx m =
  (snd out,
   {| ibs := absorb (ibs m) (fst (fst out));
      txnWriter := txnWriter m;
      blockWriter := fold_left notify (snd (fst out)) (blockWriter m);
      gp := gp m; usedGas := usedGas m; receipts := receipts m;
      calls := calls m ++ [CallCommitBlock (ibs m) (snd (fst out)) (snd out)] |}).
Proof.
  unfold ibs_CommitBlock, bind, gets. cbn.
  destruct (CommitBlock (ibs m) ctx) as [[t notes] err].
  reflexivity.
Qed.

(** One turn of the loop. *)
Lemma forTransactions_cons chainConfig bcb hd tx txs (m : @Machine _ TW BW) :
  let a := ApplyTransaction chainConfig bcb (gp m) (ibs m) hd tx (usedGas m) in
  let ev := CallApplyTransaction chainConfig tx (ap_result a) in
  forTransactions chainConfig bcb hd (tx :: txs) m =
  match ap_result a with
  | inr cause =>
      (Some (txFailed tx cause),
       {| ibs := absorb (ibs m) (ap_touch a);
          txnWriter := fold_left notify (ap_notes a) (txnWriter m);
          blockWriter := blockWriter m;
          gp := ap_gp a; usedGas := ap_usedGas a;
          receipts := receipts m;
          calls := calls m ++ [ev] |})
  | inl receipt =>
      forTransactions chainConfig bcb hd txs
        {| ibs := absorb (ibs m) (ap_touch a);
           txnWriter := fold_left notify (ap_notes a) (txnWriter m);
           blockWriter := blockWriter m;
           gp := ap_gp a; usedGas := ap_usedGas a;
           receipts := receipts m ++ [receipt];
           calls := calls m ++ [ev] |}
  end.
Proof.
  cbn [forTransactions]. unfold bind at 1.
  rewrite core_ApplyTransaction_run. cbn zeta.
  destruct (ap_result (ApplyTransaction chainConfig bcb (gp m) (ibs m) hd tx (usedGas m)));
    reflexivity.
Qed.

(** The loop over the transactions either accepts them all, or stops at
    the first one the engine rejects. *)
Lemma forTransactions_run chainConfig bcb hd txs : forall m : @Machine _ TW BW,
  exists rs,
    receipts (snd (forTransactions chainConfig bcb hd txs m)) = receipts m ++ rs
    /\ blockWriter (snd (forTransactions chainConfig bcb hd txs m)) = blockWriter m
    /\ ((fst (forTransactions chainConfig bcb hd txs m) = None
         /\ List.length rs = List.length txs
         /\ calls (snd (forTransactions chainConfig bcb hd txs m)) =
              calls m ++ accepted chainConfig txs rs)
        \/ (exists pre tx post cause,
              txs = pre ++ tx :: post
              /\ List.length rs = List.length pre
              /\ calls (snd (forTransactions chainConfig bcb hd txs m)) =
                   calls m ++ accepted chainConfig pre rs
                     ++ [CallApplyTransaction chainConfig tx (inr cause)]
              /\ fst (forTransactions chainConfig bcb hd txs m) = Some (txFailed tx cause))).
Proof.
  induction txs as [|tx txs IH]; intros m.
  - exists []. cbn. rewrite !app_nil_r. repeat split. left. repeat split.
  - rewrite forTransactions_cons. cbn zeta.
    destruct (ap_result (ApplyTransaction chainConfig bcb (gp m) (ibs m) hd tx (usedGas m)))
      as [receipt|cause] eqn:Ea.
    + match goal with |- context [forTransactions _ _ _ _ ?m1] => set (m1' := m1) end.
      destruct (IH m1') as (rs & Hrs & Hbw & Hcases).
      exists (receipt :: rs). rewrite Hrs, Hbw.
      assert (calls m1' = calls m ++ [CallApplyTransaction chainConfig tx (inl receipt)])
        as Hc1 by reflexivity.
      split; [subst m1'; cbn [receipts]; now rewrite <- app_assoc|].
      split; [reflexivity|].
      destruct Hcases as [(He & Hlen & Hc)|(pre & tx' & post & cause & Htx & Hlen & Hc & He)].
      * left. rewrite He, Hc, Hc1. repeat split; [cbn; lia|].
        rewrite <- app_assoc. reflexivity.
      * right. exists (tx :: pre), tx', post, cause.
        rewrite He, Hc, Hc1, Htx. repeat split; [cbn; lia|].
        rewrite <- !app_assoc. reflexivity.
    + exists []. cbn. rewrite !app_nil_r. repeat split.
      right. exists [], tx, txs, cause. repeat split.
Qed.

Lemma enterLoop_run chainConfig block (m : @Machine _ TW BW) :
  receipts (snd (enterLoop chainConfig block m)) = []
  /\ blockWriter (snd (enterLoop chainConfig block m)) = blockWriter m
  /\ txnWriter (snd (enterLoop chainConfig block m)) = txnWriter m
  /\ gp (snd (enterLoop chainConfig block m)) = GasLimit (header block)
  /\ usedGas (snd (enterLoop chainConfig block m)) = 0
  /\ calls (snd (enterLoop chainConfig block m)) = calls m ++ opening chainConfig block
  /\ ibs (snd (enterLoop chainConfig block m)) =
       if isDAOForkBlock chainConfig block
       then absorb (ibs m) (ApplyDAOHardFork (ibs m)) else ibs m.
Proof.
  unfold enterLoop, opening.
  destruct (isDAOForkBlock chainConfig block); cbn; rewrite ?app_nil_r; repeat split.
Qed.

Lemma runBlock_enterLoop chainConfig bcb block (m : @Machine _ TW BW) :
  runBlock chainConfig bcb block m =
  (enterLoop chainConfig block ;;
   failed <- forTransactions chainConfig bcb (header block) (transactions block) ;;
   match failed with
   | Some err => ret (Some err)
   | None =>
       rs <- gets receipts ;;
       err <- engine_FinalizeAndAssemble chainConfig (header block)
                (transactions block) (uncles block) rs ;;
       match err with
       | Some e => ret (Some (finalizeFailed block e))
       | None =>
           err <- ibs_CommitBlock (WithEIPsFlags chainConfig (Number (header block))) ;;
           match err with
           | Some e => ret (Some (commitFailed block e))
           | None => ret None
           end
       end
   end) m.
Proof. reflexivity. Qed.

(** Every run has one of the three shapes. *)
Lemma runBlock_shape_of chainConfig bcb block (m : @Machine _ TW BW) err m' :
  runBlock chainConfig bcb block m = (err, m') ->
  RunShape chainConfig bcb block m err m'.
Proof.
  rewrite runBlock_enterLoop. unfold bind at 1.
  destruct (enterLoop_run chainConfig block m) as (Hr1 & Hb1 & _ & _ & _ & Hc1 & _).
  pose proof (RunTxRejected chainConfig bcb block m) as ShapeT.
  pose proof (RunFinalizeFailed chainConfig bcb block m) as ShapeF.
  pose proof (RunCommitted chainConfig bcb block m) as ShapeC.
  destruct (enterLoop chainConfig block m) as [[] m1]. cbn [snd] in *.
  unfold bind at 1.
  destruct (forTransactions_run chainConfig bcb (header block) (transactions block) m1)
    as (rs & Hrs & Hbw & Hcases).
  destruct (forTransactions chainConfig bcb (header block) (transactions block) m1)
    as [failed m2] eqn:Eloop.
  cbn [fst snd] in *. rewrite Hr1 in Hrs. cbn [app] in Hrs. subst rs.
  destruct Hcases as [(-> & Hlen & Hc)|(pre & tx & post & cause & Htx & Hlen & Hc & ->)].
  - unfold bind at 1, gets at 1. unfold bind at 1.
    rewrite engine_FinalizeAndAssemble_run. cbn zeta.
    destruct (snd (FinalizeAndAssemble chainConfig (header block) (ibs m2)
                     (transactions block) (uncles block) (receipts m2))) as [blk|cause].
    + unfold bind at 1. rewrite ibs_CommitBlock_run. cbn zeta.
      match goal with
      | |- context [CallCommitBlock ?s ?notes ?failed] =>
          specialize (ShapeC s notes failed m2); destruct failed as [e|]
      end.
      * cbn [ret]. intros E. injection E as <- <-.
        apply ShapeC; try reflexivity; try assumption.
        -- cbn [blockWriter]. now rewrite Hbw, Hb1.
        -- cbn [calls]. rewrite Hc, Hc1, <- !app_assoc. reflexivity.
      * cbn [ret]. intros E. injection E as <- <-.
        apply ShapeC; try reflexivity; try assumption.
        -- cbn [blockWriter]. now rewrite Hbw, Hb1.
        -- cbn [calls]. rewrite Hc, Hc1, <- !app_assoc. reflexivity.
    + cbn [ret]. intros E. injection E as <- <-.
      eapply ShapeF; try reflexivity; try eassumption.
      * cbn [blockWriter]. now rewrite Hbw, Hb1.
      * cbn [calls]. rewrite Hc, Hc1, <- !app_assoc. reflexivity.
  - cbn [ret]. intros E. injection E as <- <-.
    eapply ShapeT; try eassumption; try reflexivity.
    + now rewrite Hbw, Hb1.
    + rewrite Hc, Hc1, <- !app_assoc. reflexivity.
Qed.

End OrchestratorFacts.

(** ** Lists of pairs *)

Lemma combine_fst {A B : Type} (l : list A) (l' : list B) :
  List.length l' = List.length l -> map fst (combine l l') = l.
Proof.
  revert l'. induction l as [|a l IH]; intros [|b l'] Hlen; try discriminate; [reflexivity|].
  cbn. f_equal. apply IH. now injection Hlen.
Qed.

Lemma combine_snd {A B : Type} (l : list A) (l' : list B) :
  List.length l' = List.length l -> map snd (combine l l') = l'.
Proof.
  revert l'. induction l as [|a l IH]; intros [|b l'] Hlen; try discriminate; [reflexivity|].
  cbn. f_equal. apply IH. now injection Hlen.
Qed.

Lemma firstn_exact {A : Type} (l l' : list A) : firstn (List.length l) (l ++ l') = l.
Proof.
  rewrite firstn_app, Nat.sub_diag, firstn_all. cbn. apply app_nil_r.
Qed.

Lemma firstn_one_more {A : Type} (l l' : list A) (a : A) :
  firstn (S (List.length l)) (l ++ a :: l') = l ++ [a].
Proof.
  replace (l ++ a :: l') with ((l ++ [a]) ++ l') by (now rewrite <- app_assoc).
  replace (S (List.length l)) with (List.length (l ++ [a])) by (rewrite length_app; cbn; lia).
  apply firstn_exact.
Qed.

(** ** Properties of the orchestrator *)

Section ReplayFacts.
Context `{Collaborators}.
Context {TW BW : Type} `{StateWriter TW} `{StateWriter BW}.

Lemma opening_quiet chainConfig block :
  applied (opening chainConfig block) = []
  /\ committedNotes (opening chainConfig block) = []
  /\ existsb failedCall (opening chainConfig block) = false
  /\ existsb is_finalize (opening chainConfig block) = false
  /\ existsb is_commit (opening chainConfig block) = false
  /\ existsb is_lookup (opening chainConfig block) = false
  /\ Forall (usesConfig chainConfig) (opening chainConfig block).
Proof.
  unfold opening. destruct (isDAOForkBlock chainConfig block); cbn;
    repeat split; repeat constructor.
Qed.

(** C1. Replaying a block with n transactions leaves exactly n receipts, in
    the order of the transactions, each the engine's answer to its
    transaction; or the engine rejects the transaction at some index i, and
    then the replay returns the error naming that transaction's hash, the
    engine was asked about transactions 0..i and none after, the receipts
    are those of transactions 0..i-1, and neither finalization nor the
    commit was called. *)
Theorem runBlock_receipts_or_first_rejection
    chainConfig bcb block (m : @Machine _ TW BW) :
  let r := runBlock chainConfig bcb block m in
  let evs := newCalls (calls m) (calls (snd r)) in
  let asked := applied evs in
  let txs := transactions block in
  let rs := receipts (snd r) in
  (map fst asked = txs
   /\ map snd asked = map inl rs
   /\ List.length rs = List.length txs)
  \/ (exists i tx cause,
        nth_error txs i = Some tx
        /\ nth_error asked i = Some (tx, inr cause)
        /\ List.length asked = S i
        /\ map fst asked = firstn (S i) txs
        /\ map snd (firstn i asked) = map inl rs
        /\ List.length rs = i
        /\ fst r = Some (Errorf ("tx " ++ fmt_x (tx_Hash tx) ++ " failed: "
                                   ++ Error cause)%string)
        /\ existsb is_finalize evs = false
        /\ existsb is_commit evs = false).
Proof.
  intros r evs asked txs rs. subst asked evs rs txs r.
  destruct (runBlock chainConfig bcb block m) as [err m'] eqn:Shape.
  apply runBlock_shape_of in Shape. cbn [fst snd].
  destruct (opening_quiet chainConfig block) as (Oa & _ & _ & Of & Oc & _).
  destruct Shape as [pre post tx cause m2 _ Htx Hlen _ Hc
                    |cause m2 m3 _ Hlen Hrs _ Hc
                    |s notes failed m2 m3 _ Hlen Hrs _ _ Hc].
  - right. exists (List.length pre), tx, cause.
    rewrite Hc, newCalls_app, !applied_app, Oa, accepted_applied by exact Hlen.
    cbn [applied flat_map app].
    assert (List.length (combine pre (map (@inl Receipt error) (receipts m2)))
            = List.length pre) as Hcl
      by (rewrite length_combine, length_map; lia).
    repeat split.
    + rewrite Htx, nth_error_app2, Nat.sub_diag by lia. reflexivity.
    + rewrite nth_error_app2, Hcl, Nat.sub_diag by lia. reflexivity.
    + rewrite length_app, Hcl. cbn. lia.
    + rewrite map_app, combine_fst, Htx, firstn_one_more by (now rewrite length_map).
      reflexivity.
    + rewrite <- Hcl at 1. rewrite firstn_exact.
      apply combine_snd. now rewrite length_map.
    + exact Hlen.
    + rewrite !existsb_app, Of. destruct (accepted_quiet chainConfig pre (receipts m2))
        as (_ & _ & _ & -> & _). reflexivity.
    + rewrite !existsb_app, Oc. destruct (accepted_quiet chainConfig pre (receipts m2))
        as (_ & _ & _ & _ & -> & _). reflexivity.
  - left. rewrite Hc, newCalls_app, !applied_app, Oa, accepted_applied, Hrs by exact Hlen.
    cbn [applied flat_map app]. rewrite app_nil_r.
    repeat split.
    + apply combine_fst. now rewrite length_map.
    + apply combine_snd. now rewrite length_map.
    + exact Hlen.
  - left. rewrite Hc, newCalls_app, !applied_app, Oa, accepted_applied, Hrs by exact Hlen.
    cbn [applied flat_map app]. rewrite app_nil_r.
    repeat split.
    + apply combine_fst. now rewrite length_map.
    + apply combine_snd. now rewrite length_map.
    + exact Hlen.
Qed.

Lemma isDAOForkBlock_iff chainConfig block :
  isDAOForkBlock chainConfig block = true <->
  DAOForkSupport chainConfig = true
  /\ DAOForkBlock chainConfig = Some (Number (header block)).
Proof.
  unfold isDAOForkBlock. rewrite andb_true_iff.
  destruct (DAOForkBlock chainConfig) as [n|].
  - rewrite Z.eqb_eq. split; intros [Hs Hn]; split; congruence.
  - split; intros [Hs Hn]; discriminate.
Qed.

Lemma opening_phases chainConfig block :
  map phase_of (opening chainConfig block) =
  if isDAOForkBlock chainConfig block then [Transition] else [].
Proof. unfold opening. now destruct (isDAOForkBlock chainConfig block). Qed.

(** What follows the opening in the log of a run. *)
Lemma runBlock_after_opening chainConfig bcb block (m : @Machine _ TW BW) :
  exists rest,
    newCalls (calls m) (calls (snd (runBlock chainConfig bcb block m)))
      = opening chainConfig block ++ rest
    /\ existsb is_transition rest = false
    /\ existsb is_lookup rest = false
    /\ Forall (usesConfig chainConfig) rest.
Proof.
  destruct (runBlock chainConfig bcb block m) as [err m'] eqn:Shape.
  apply runBlock_shape_of in Shape. cbn [snd].
  destruct Shape as [pre post tx cause m2 _ Htx Hlen _ Hc
                    |cause m2 m3 _ Hlen Hrs _ Hc
                    |s notes failed m2 m3 _ Hlen Hrs _ _ Hc];
    rewrite Hc, newCalls_app; eexists; (split; [reflexivity|]);
    rewrite !existsb_app;
    match goal with
    | |- context [accepted ?c ?t ?r] =>
        destruct (accepted_quiet c t r) as (_ & _ & -> & _ & _ & -> & Hcfg)
    end;
    repeat split; apply Forall_app; split; try exact Hcfg; repeat constructor.
Qed.

(** C5 (amended). The one-time transition is applied exactly when the
    configuration supports the fork and the block's height equals the
    configured fork height; when applied it is the first call of the run,
    made once, so the loop over the transactions starts from the overlay it
    left; otherwise it is skipped and the loop starts from the overlay as
    handed in. *)
Theorem transition_iff_supported_fork_block
    chainConfig bcb block (m : @Machine _ TW BW) :
  let evs := newCalls (calls m) (calls (snd (runBlock chainConfig bcb block m))) in
  let entered := ibs (snd (enterLoop chainConfig block m)) in
  (existsb is_transition evs = true <->
     DAOForkSupport chainConfig = true
     /\ DAOForkBlock chainConfig = Some (Number (header block)))
  /\ (existsb is_transition evs = true ->
        entered = absorb (ibs m) (ApplyDAOHardFork (ibs m))
        /\ exists rest,
             evs = CallApplyDAOHardFork :: rest /\ existsb is_transition rest = false)
  /\ (existsb is_transition evs = false -> entered = ibs m).
Proof.
  intros evs entered. subst evs entered.
  destruct (runBlock_after_opening chainConfig bcb block m) as (rest & -> & Ht & _).
  destruct (enterLoop_run chainConfig block m) as (_ & _ & _ & _ & _ & _ & ->).
  rewrite existsb_app, Ht, orb_false_r, <- isDAOForkBlock_iff.
  unfold opening. destruct (isDAOForkBlock chainConfig block); cbn.
  - repeat split; try discriminate. now exists rest.
  - repeat split; discriminate.
Qed.

(** C9. The calls of a run are a prefix of the plan: the one-time
    transition when due, each transaction in block order, finalization, the
    commit; a run without error makes the whole plan.  The commit is called at
    most once, is the last call, and comes right after finalization.
    Finalization is called on the overlay and with the receipts that the
    completed loop left, the commit on the overlay that finalization left.
    The commit's notifications are what the block-scoped sink receives.  With no transactions, finalization is still
    called after the opening, and the commit follows it unless finalization
    failed. *)
Theorem phases_in_fixed_order chainConfig bcb block (m : @Machine _ TW BW) :
  let r := runBlock chainConfig bcb block m in
  let evs := newCalls (calls m) (calls (snd r)) in
  let plan := schedule (isDAOForkBlock chainConfig block) (transactions block) in
  (exists k, map phase_of evs = firstn k plan)
  /\ (fst r = None -> map phase_of evs = plan)
  /\ (List.length (filter is_commit evs) <= 1)%nat
  /\ (forall before c after,
        evs = before ++ c :: after -> is_commit c = true ->
        after = []
        /\ exists before' f, before = before' ++ [f] /\ is_finalize f = true)
  /\ (forall cfg s txs rs e,
        In (CallFinalizeAndAssemble cfg s txs rs e) evs ->
        exists m2,
          forTransactions chainConfig bcb (header block) (transactions block)
            (snd (enterLoop chainConfig block m)) = (None, m2)
          /\ s = ibs m2 /\ rs = receipts m2 /\ txs = transactions block)
  /\ (forall s notes e,
        In (CallCommitBlock s notes e) evs ->
        blockWriter (snd r) = fold_left notify notes (blockWriter m)
        /\ exists m2,
             forTransactions chainConfig bcb (header block) (transactions block)
               (snd (enterLoop chainConfig block m)) = (None, m2)
             /\ s = absorb (ibs m2)
                      (fst (FinalizeAndAssemble chainConfig (header block) (ibs m2)
                              (transactions block) (uncles block) (receipts m2))))
  /\ (transactions block = [] ->
        exists s ferr rest,
          evs = opening chainConfig block
                  ++ CallFinalizeAndAssemble chainConfig s [] [] ferr :: rest
          /\ (ferr = None -> exists s' notes cerr, rest = [CallCommitBlock s' notes cerr])
          /\ (ferr <> None -> rest = [])).
Proof.
  intros r evs plan. subst evs plan r.
  destruct (runBlock chainConfig bcb block m) as [err m'] eqn:Shape.
  apply runBlock_shape_of in Shape. cbn [fst snd].
  unfold schedule. rewrite <- opening_phases.
  destruct (opening_quiet chainConfig block) as (_ & _ & _ & Of & Oc & _).
  assert (forall c, In c (opening chainConfig block) -> c = CallApplyDAOHardFork) as Oin.
  { unfold opening. destruct (isDAOForkBlock chainConfig block); cbn; intuition. }
  assert (forall txs rs c, In c (accepted chainConfig txs rs) -> is_apply c = true) as Ain.
  { unfold accepted. intros txs rs c Hin. apply in_map_iff in Hin.
    destruct Hin as (p & <- & _). reflexivity. }
  assert (filter is_commit (opening chainConfig block) = []) as Ofc.
  { unfold opening. now destruct (isDAOForkBlock chainConfig block). }
  assert (forall txs rs, filter is_commit (accepted chainConfig txs rs) = []) as Afc.
  { unfold accepted. intros txs rs. induction (combine txs rs); [reflexivity|assumption]. }
  destruct Shape as [pre post tx cause m2 Eloop Htx Hlen _ Hc
                    |cause m2 m3 Eloop Hlen Hrs Hbw Hc
                    |s notes failed m2 m3 Eloop Hlen Hrs Hbw Hs Hc];
    rewrite Hc, newCalls_app.
  - (* a transaction was rejected *)
    split; [|split; [discriminate|split; [|split; [|split; [|split]]]]].
    + rewrite !map_app, accepted_phases, Htx by exact Hlen. cbn [map phase_of].
      rewrite map_app. cbn [map].
      exists (List.length (map phase_of (opening chainConfig block)
                             ++ map ApplyTx pre ++ [@ApplyTx _ tx])).
      rewrite <- (firstn_exact _ (map ApplyTx post ++ [Finalize; Commit])) at 1.
      f_equal. rewrite <- !app_assoc. reflexivity.
    + rewrite !filter_app, Ofc, Afc. cbn. lia.
    + intros before c after E Hcm. exfalso.
      assert (In c (opening chainConfig block ++ accepted chainConfig pre (receipts m2)
                      ++ [CallApplyTransaction chainConfig tx (inr cause)])) as Hin
        by (rewrite E; apply in_elt).
      rewrite !in_app_iff in Hin. destruct Hin as [Hin|[Hin|[<-|[]]]].
      * apply Oin in Hin. now subst c.
      * apply Ain in Hin. now destruct c.
      * discriminate.
    + intros cfg s txs rs e Hin. exfalso.
      rewrite !in_app_iff in Hin. destruct Hin as [Hin|[Hin|[Hin|[]]]].
      * apply Oin in Hin. discriminate.
      * apply Ain in Hin. discriminate.
      * discriminate.
    + intros s notes e Hin. exfalso.
      rewrite !in_app_iff in Hin. destruct Hin as [Hin|[Hin|[Hin|[]]]].
      * apply Oin in Hin. discriminate.
      * apply Ain in Hin. discriminate.
      * discriminate.
    + intros Hnil. rewrite Hnil in Htx. now destruct pre.
  - (* finalization failed *)
    split; [|split; [discriminate|split; [|split; [|split; [|split]]]]].
    + rewrite !map_app, accepted_phases by exact Hlen. cbn [map phase_of].
      exists (List.length (map phase_of (opening chainConfig block)
                             ++ map ApplyTx (transactions block) ++ [@Finalize _])).
      rewrite <- (firstn_exact _ [@Commit _]) at 1.
      f_equal. rewrite <- !app_assoc. reflexivity.
    + rewrite !filter_app, Ofc, Afc. cbn. lia.
    + intros before c after E Hcm. exfalso.
      assert (In c (opening chainConfig block
                      ++ accepted chainConfig (transactions block) (receipts m2)
                      ++ [CallFinalizeAndAssemble chainConfig (ibs m2) (transactions block)
                            (receipts m2) (Some cause)])) as Hin
        by (rewrite E; apply in_elt).
      rewrite !in_app_iff in Hin. destruct Hin as [Hin|[Hin|[<-|[]]]].
      * apply Oin in Hin. now subst c.
      * apply Ain in Hin. now destruct c.
      * discriminate.
    + intros cfg s txs rs e Hin.
      rewrite !in_app_iff in Hin. destruct Hin as [Hin|[Hin|[Hin|[]]]].
      * apply Oin in Hin. discriminate.
      * apply Ain in Hin. discriminate.
      * injection Hin as <- <- <- <- <-. now exists m2.
    + intros s notes e Hin. exfalso.
      rewrite !in_app_iff in Hin. destruct Hin as [Hin|[Hin|[Hin|[]]]].
      * apply Oin in Hin. discriminate.
      * apply Ain in Hin. discriminate.
      * discriminate.
    + intros Hnil. rewrite Hnil in *. destruct (receipts m2); [|discriminate].
      exists (ibs m2), (Some cause), []. split; [reflexivity|]. split; [discriminate|reflexivity].
  - (* the commit was reached *)
    split; [|split; [|split; [|split; [|split; [|split]]]]].
    + rewrite !map_app, accepted_phases by exact Hlen. cbn [map phase_of].
      exists (List.length (map phase_of (opening chainConfig block)
                             ++ map ApplyTx (transactions block) ++ [@Finalize _; @Commit _])).
      symmetry. apply firstn_all.
    + intros _. rewrite !map_app, accepted_phases by exact Hlen. reflexivity.
    + rewrite !filter_app, Ofc, Afc. cbn. lia.
    + intros before c after E Hcm.
      rewrite !app_assoc in E.
      change [CallFinalizeAndAssemble chainConfig (ibs m2) (transactions block)
                (receipts m2) None; CallCommitBlock s notes failed]
        with ([CallFinalizeAndAssemble chainConfig (ibs m2) (transactions block)
                 (receipts m2) None] ++ [CallCommitBlock s notes failed]) in E.
      rewrite app_assoc in E.
      destruct after as [|a after'] using rev_ind.
      * apply app_inj_tail in E. destruct E as [<- _].
        split; [reflexivity|]. eexists _, _. split; [reflexivity|reflexivity].
      * clear IHafter'. exfalso.
        rewrite app_comm_cons, app_assoc in E. apply app_inj_tail in E.
        destruct E as [E _].
        assert (In c ((opening chainConfig block
                        ++ accepted chainConfig (transactions block) (receipts m2))
                        ++ [CallFinalizeAndAssemble chainConfig (ibs m2)
                              (transactions block) (receipts m2) None])) as Hin
          by (rewrite E; apply in_elt).
        rewrite !in_app_iff in Hin. destruct Hin as [[Hin|Hin]|[<-|[]]].
        -- apply Oin in Hin. now subst c.
        -- apply Ain in Hin. now destruct c.
        -- discriminate.
    + intros cfg s0 txs rs e Hin.
      rewrite !in_app_iff in Hin. destruct Hin as [Hin|[Hin|[Hin|[Hin|[]]]]].
      * apply Oin in Hin. discriminate.
      * apply Ain in Hin. discriminate.
      * injection Hin as <- <- <- <- <-. now exists m2.
      * discriminate.
    + intros s0 notes0 e Hin.
      rewrite !in_app_iff in Hin. destruct Hin as [Hin|[Hin|[Hin|[Hin|[]]]]].
      * apply Oin in Hin. discriminate.
      * apply Ain in Hin. discriminate.
      * discriminate.
      * injection Hin as <- <- <-. split; [exact Hbw|]. now exists m2.
    + intros Hnil. rewrite Hnil in *. destruct (receipts m2); [|discriminate].
      exists (ibs m2), None, [CallCommitBlock s notes failed].
      split; [reflexivity|]. split; [now eexists _, _, _|congruence].
Qed.

(** The block-scoped sink has received the notifications of the commit,
    and nothing else. *)
Lemma runBlock_blockWriter chainConfig bcb block (m : @Machine _ TW BW) :
  blockWriter (snd (runBlock chainConfig bcb block m)) =
  fold_left notify
    (committedNotes (newCalls (calls m) (calls (snd (runBlock chainConfig bcb block m)))))
    (blockWriter m).
Proof.
  destruct (runBlock chainConfig bcb block m) as [err m'] eqn:Shape.
  apply runBlock_shape_of in Shape. cbn [snd].
  destruct (opening_quiet chainConfig block) as (_ & On & _).
  destruct Shape as [pre post tx cause m2 _ _ _ Hbw Hc
                    |cause m2 m3 _ _ _ Hbw Hc
                    |s notes failed m2 m3 _ _ _ Hbw _ Hc];
    rewrite Hc, newCalls_app, !committedNotes_app, On, Hbw;
    match goal with
    | |- context [accepted ?c ?t ?r] =>
        destruct (accepted_quiet c t r) as (-> & _)
    end; cbn; rewrite ?app_nil_r; reflexivity.
Qed.

End ReplayFacts.

(** ** The write log of a replay *)

Lemma firstIndex_bound k ks j : firstIndex k ks = Some j -> (j < List.length ks)%nat.
Proof.
  revert j. induction ks as [|a ks IH]; cbn [firstIndex]; intros j; [discriminate|].
  destruct (bytes_eqb a k).
  - intros [= <-]. cbn. lia.
  - destruct (firstIndex k ks) as [j'|]; cbn; [|discriminate].
    intros [= <-]. specialize (IH j' eq_refl). lia.
Qed.

Lemma firstIndex_app_found k ks l j :
  firstIndex k ks = Some j -> firstIndex k (ks ++ l) = Some j.
Proof.
  revert j. induction ks as [|a ks IH]; cbn [firstIndex app]; intros j; [discriminate|].
  destruct (bytes_eqb a k); [trivial|].
  destruct (firstIndex k ks) as [j'|]; cbn; [|discriminate].
  intros [= <-]. now rewrite (IH j' eq_refl).
Qed.

Lemma firstIndex_snoc_fresh k ks :
  ~ In k ks -> firstIndex k (ks ++ [k]) = Some (List.length ks).
Proof.
  induction ks as [|a ks IH]; cbn [firstIndex app In]; intros Hk.
  - now rewrite bytes_eqb_refl.
  - assert (bytes_eqb a k = false) as -> by (apply bytes_eqb_neq; tauto).
    rewrite IH by tauto. reflexivity.
Qed.

Lemma firstSeen_position ks : forall i k,
  nth_error (firstSeen ks) i = Some k ->
  exists j, firstIndex k ks = Some j
            /\ i = List.length (firstSeen (firstn j ks)).
Proof.
  induction ks as [|a ks IH] using rev_ind; intros i k Hi.
  - destruct i; discriminate.
  - assert (forall j, firstIndex k ks = Some j ->
                      firstn j (ks ++ [a]) = firstn j ks) as Hfirstn.
    { intros j Hj. apply firstIndex_bound in Hj.
      rewrite firstn_app. replace (j - List.length ks)%nat with O by lia.
      cbn. apply app_nil_r. }
    destruct (in_dec (list_eq_dec byte_eq_dec) a ks) as [Ha|Ha].
    + rewrite firstSeen_snoc_seen in Hi by exact Ha.
      destruct (IH i k Hi) as (j & Hj & ->). exists j.
      now rewrite (firstIndex_app_found k ks [a] j Hj), (Hfirstn j Hj).
    + rewrite firstSeen_snoc_fresh in Hi by exact Ha.
      destruct (Nat.lt_ge_cases i (List.length (firstSeen ks))) as [Hlt|Hge].
      * rewrite nth_error_app1 in Hi by exact Hlt.
        destruct (IH i k Hi) as (j & Hj & ->). exists j.
        now rewrite (firstIndex_app_found k ks [a] j Hj), (Hfirstn j Hj).
      * rewrite nth_error_app2 in Hi by exact Hge.
        destruct (i - List.length (firstSeen ks))%nat as [|d] eqn:Ed;
          [|destruct d; discriminate].
        injection Hi as <-. exists (List.length ks).
        rewrite firstIndex_snoc_fresh by exact Ha.
        rewrite firstn_exact. split; [reflexivity|lia].
Qed.

(** The recorder of the spec keeps a faithful log of whatever it is sent. *)
Lemma recordAll_faithful ws : faithfulLog ws (recordAll ws []).
Proof.
  unfold faithfulLog. rewrite recordAll_keys.
  split; [apply NoDup_firstSeen|]. split; [reflexivity|]. split.
  - intros i c Hi. apply firstSeen_position.
    rewrite <- recordAll_keys, nth_error_map, Hi. reflexivity.
  - apply recordAll_value.
Qed.

Section RecorderFacts.
Context `{Collaborators}.
Context {TW : Type} `{StateWriter TW}.

(** C2. After a replay that starts from a fresh recorder, the account
    change set and the storage change set each list every key once, in the
    order of the keys' first writes during the replay, each entry holding
    the value of the last write to its key. *)
Theorem write_log_first_write_last_value
    chainConfig bcb block (m : @Machine _ TW ChangeSetWriter) :
  blockWriter m = NewChangeSetWriter ->
  let m' := snd (runBlock chainConfig bcb block m) in
  let notes := committedNotes (newCalls (calls m) (calls m')) in
  faithfulLog (accountWrites notes) (Changes (fst (GetAccountChanges (blockWriter m'))))
  /\ faithfulLog (storageWrites notes) (Changes (fst (GetStorageChanges (blockWriter m')))).
Proof.
  intros Hfresh m' notes. subst m' notes.
  rewrite runBlock_blockWriter, Hfresh, notify_all_recorder.
  cbn. split; apply recordAll_faithful.
Qed.

End RecorderFacts.

(** ** The orchestrator never reads the call log *)

Section ObliviousFacts.
Context `{Collaborators}.
Context {TW BW : Type} `{StateWriter TW} `{StateWriter BW}.

Lemma recall_calls (m : @Machine _ TW BW) : recall (calls m) m = m.
Proof. now destruct m. Qed.

Lemma Oblivious_ret {A : Type} (a : A) : Oblivious (TW := TW) (BW := BW) (ret a).
Proof. intros m. exists a, m, []. intros t. now rewrite app_nil_r. Qed.

Lemma Oblivious_bind {A B : Type} (c : State (@Machine _ TW BW) A)
    (k : A -> State (@Machine _ TW BW) B) :
  Oblivious c -> (forall a, Oblivious (k a)) -> Oblivious (bind c k).
Proof.
  intros Hc Hk m.
  destruct (Hc m) as (a & m1 & evs1 & E1).
  destruct (Hk a m1) as (b & m2 & evs2 & E2).
  exists b, m2, (evs1 ++ evs2). intros t.
  unfold bind. rewrite E1, E2, app_assoc. reflexivity.
Qed.

Lemma Oblivious_log c : Oblivious (TW := TW) (BW := BW) (log c).
Proof. intros m. exists tt, m, [c]. reflexivity. Qed.

Lemma Oblivious_objects {A : Type} (f : @Machine _ TW BW -> A)
    (g : @Machine _ TW BW -> @Machine _ TW BW) :
  (forall t m, f (recall t m) = f m) ->
  (forall t m, g (recall t m) = recall t (g m)) ->
  Oblivious (gets f) /\ Oblivious (modify g).
Proof.
  intros Hf Hg. split; intros m.
  - exists (f m), m, []. intros t. unfold gets. now rewrite Hf, app_nil_r.
  - exists tt, (g m), []. intros t. unfold modify. now rewrite Hg, app_nil_r.
Qed.

Ltac oblivious :=
  repeat first
    [ apply Oblivious_ret
    | apply Oblivious_log
    | apply Oblivious_bind; [|intros ?]
    | (apply (Oblivious_objects (fun m => m)); reflexivity)
    | match goal with
      | |- Oblivious (gets ?f) =>
          apply (proj1 (Oblivious_objects f (fun m => m)
                          (fun _ _ => eq_refl) (fun _ _ => eq_refl)))
      | |- Oblivious (modify ?g) =>
          apply (proj2 (Oblivious_objects (fun _ => tt) g
                          (fun _ _ => eq_refl) (fun _ _ => eq_refl)))
      | |- Oblivious (match ?x with _ => _ end) => destruct x
      | |- Oblivious (let (_, _) := ?x in _) => destruct x
      end ].

Lemma Oblivious_forTransactions chainConfig bcb hd txs :
  Oblivious (TW := TW) (BW := BW) (forTransactions chainConfig bcb hd txs).
Proof.
  induction txs as [|tx txs IH]; cbn [forTransactions].
  - oblivious.
  - unfold core_ApplyTransaction, set_ibs, set_txnWriter, set_gas, set_receipts.
    oblivious. exact IH.
Qed.

Lemma Oblivious_runBlock chainConfig bcb block :
  Oblivious (TW := TW) (BW := BW) (runBlock chainConfig bcb block).
Proof.
  unfold runBlock, misc_ApplyDAOHardFork, engine_FinalizeAndAssemble, ibs_CommitBlock,
    set_ibs, set_blockWriter, set_gas, set_receipts.
  oblivious; try apply Oblivious_forTransactions; oblivious.
Qed.


Lemma runBlock_extends chainConfig bcb block (m : @Machine _ TW BW) :
  calls (snd (runBlock chainConfig bcb block m)) =
  calls m ++ newCalls (calls m) (calls (snd (runBlock chainConfig bcb block m))).
Proof.
  destruct (Oblivious_runBlock chainConfig bcb block m) as (a & m' & evs & E).
  pose proof (E (calls m)) as E0. rewrite recall_calls in E0.
  rewrite E0. cbn [snd recall calls]. now rewrite newCalls_app.
Qed.

(** A run returns an error exactly when one of its calls came back with
    one. *)
Lemma runBlock_failure_iff chainConfig bcb block (m : @Machine _ TW BW) :
  fst (runBlock chainConfig bcb block m) <> None <->
  existsb failedCall
    (newCalls (calls m) (calls (snd (runBlock chainConfig bcb block m)))) = true.
Proof.
  destruct (runBlock chainConfig bcb block m) as [err m'] eqn:Shape.
  apply runBlock_shape_of in Shape. cbn [fst snd].
  destruct (opening_quiet chainConfig block) as (_ & _ & Ofail & _).
  destruct Shape as [pre post tx cause m2 _ _ _ _ Hc
                    |cause m2 m3 _ _ _ _ Hc
                    |s notes failed m2 m3 _ _ _ _ _ Hc];
    rewrite Hc, newCalls_app, !existsb_app, Ofail;
    match goal with
    | |- context [accepted ?c ?t ?r] =>
        destruct (accepted_quiet c t r) as (_ & -> & _)
    end; cbn.
  - split; [reflexivity|discriminate].
  - split; [reflexivity|discriminate].
  - destruct failed; cbn; split; congruence.
Qed.

End ObliviousFacts.

(** ** Properties of the entry point *)

Section EntryFacts.
Context `{Collaborators}.
Context {BW : Type} `{ChangeSetRecorder BW}.

Lemma ReadChainConfig_run db chain (t : Trace) :
  ReadChainConfig db chain t =
  (fst (json_Unmarshal (fst (bucketGet db ConfigPrefix (genesisKey chain))) ChainConfig_zero),
   t ++ [CallGet ConfigPrefix (genesisKey chain)]).
Proof.
  unfold ReadChainConfig, View, bind, tell, modify, ret.
  destruct (bucketGet db ConfigPrefix (genesisKey chain)) as [d e]. cbn [fst].
  destruct (json_Unmarshal d ChainConfig_zero) as [config e']. reflexivity.
Qed.

Lemma GetBlockByNumber_run db number (t : Trace) :
  GetBlockByNumber db number t = (blockByNumber db number, t ++ [CallBlockByNumber number]).
Proof.
  unfold GetBlockByNumber, View, bind, tell, modify, ret.
  destruct (blockByNumber db number); reflexivity.
Qed.

(** [Retrace], case by case. *)
Lemma Retrace_run blockNumber chain db (t : Trace) :
  let chainConfig := fst (ReadChainConfig db chain t) in
  let t1 := snd (ReadChainConfig db chain t) in
  let bn := fst (Atoi blockNumber) in
  let t2 := t1 ++ [CallBlockByNumber (uint64 bn)] in
  Retrace (BW := BW) blockNumber chain db t =
  match snd (Atoi blockNumber) with
  | Some e => ((RetraceResponse_zero, Some e), t1)
  | None =>
      match blockByNumber db (uint64 bn) with
      | inr e => ((RetraceResponse_zero, Some e), t2)
      | inl block =>
          let run := replayOf chainConfig db bn block t2 in
          match fst run with
          | Some e => ((RetraceResponse_zero, Some e), calls (snd run))
          | None => ((responseOf (snd run), None), calls (snd run))
          end
      end
  end.
Proof.
  cbn zeta. unfold Retrace. unfold bind at 1.
  destruct (ReadChainConfig db chain t) as [chainConfig t1]. cbn [fst snd].
  destruct (Atoi blockNumber) as [bn [e|]]; cbn [fst snd]; [reflexivity|].
  unfold bind at 1. rewrite GetBlockByNumber_run.
  destruct (blockByNumber db (uint64 bn)) as [block|e]; [|reflexivity].
  unfold bind at 1, withMachine, replayOf.
  destruct (runBlock chainConfig (NewRemoteContext db) block _) as [[e|] m];
    cbn [fst snd]; [reflexivity|].
  unfold responseOf.
  destruct (GetAccountChanges (blockWriter m)) as [accountChanges ea].
  destruct (GetStorageChanges (blockWriter m)) as [storageChanges es].
  rewrite !appendKeys_map, !appendReads_map, !map_map. reflexivity.
Qed.

Lemma genesisKey_unknown chain :
  chain <> "mainnet" -> chain <> "testnet" -> chain <> "rinkeby" -> chain <> "goerli" ->
  genesisKey chain = [].
Proof.
  intros H1' H2' H3' H4'. unfold genesisKey.
  apply String.eqb_neq in H1', H2', H3', H4'.
  now rewrite H1', H2', H3', H4'.
Qed.

(** The calls [Retrace] adds to the log. *)
Lemma Retrace_calls blockNumber chain db (t : Trace) :
  let chainConfig := fst (ReadChainConfig db chain t) in
  let bn := fst (Atoi blockNumber) in
  let get := CallGet ConfigPrefix (genesisKey chain) in
  let t2 := t ++ [get; CallBlockByNumber (uint64 bn)] in
  newCalls t (snd (Retrace (BW := BW) blockNumber chain db t)) =
  match snd (Atoi blockNumber) with
  | Some e => [get]
  | None =>
      match blockByNumber db (uint64 bn) with
      | inr e => [get; CallBlockByNumber (uint64 bn)]
      | inl block =>
          get :: CallBlockByNumber (uint64 bn)
            :: newCalls t2 (calls (snd (replayOf chainConfig db bn block t2)))
      end
  end.
Proof.
  cbn zeta. rewrite Retrace_run. cbn zeta. rewrite ReadChainConfig_run. cbn [fst snd].
  destruct (snd (Atoi blockNumber)); cbn [snd]; [apply newCalls_app|].
  destruct (blockByNumber db (uint64 (fst (Atoi blockNumber)))) as [block|e];
    cbn [snd]; [|rewrite <- app_assoc; apply newCalls_app].
  rewrite <- app_assoc. cbn [app].
  match goal with
  | |- context [replayOf ?c ?d ?n ?b ?t2] => set (run := replayOf c d n b t2)
  end.
  assert (calls (snd run) =
          (t ++ [CallGet ConfigPrefix (genesisKey chain);
                 CallBlockByNumber (uint64 (fst (Atoi blockNumber)))])
            ++ newCalls (t ++ [CallGet ConfigPrefix (genesisKey chain);
                               CallBlockByNumber (uint64 (fst (Atoi blockNumber)))])
                 (calls (snd run))) as Hext
    by (subst run; unfold replayOf; apply (runBlock_extends _ _ _ (boot _ _ _ _))).
  assert (newCalls t (calls (snd run)) =
          CallGet ConfigPrefix (genesisKey chain)
            :: CallBlockByNumber (uint64 (fst (Atoi blockNumber)))
            :: newCalls (t ++ [CallGet ConfigPrefix (genesisKey chain);
                               CallBlockByNumber (uint64 (fst (Atoi blockNumber)))])
                 (calls (snd run))) as Hnew
    by (rewrite Hext at 1; rewrite <- app_assoc; apply newCalls_app).
  destruct (fst run); exact Hnew.
Qed.

(** C3 (the code at the failing input). The height ["-1"] is not a
    non-negative decimal, yet [Atoi] accepts it; [Retrace] converts the result
    to 18446744073709551615 and asks the store for the block at that height,
    and when the store has none it is the store's error that comes back.
    A height on which [Atoi] reports an error is rejected with that error
    and the zero response before any block is looked up. *)
Theorem negative_height_reaches_block_lookup chain db (t : Trace) :
  is_nonneg_decimal "-1" = false
  /\ Atoi "-1" = (-1, None)
  /\ In (CallBlockByNumber 18446744073709551615)
        (newCalls t (snd (Retrace (BW := BW) "-1" chain db t)))
  /\ (forall e, blockByNumber db 18446744073709551615 = inr e ->
        fst (Retrace (BW := BW) "-1" chain db t) = (RetraceResponse_zero, Some e))
  /\ (forall s e, snd (Atoi s) = Some e ->
        fst (Retrace (BW := BW) s chain db t) = (RetraceResponse_zero, Some e)
        /\ existsb is_lookup (newCalls t (snd (Retrace (BW := BW) s chain db t))) = false).
Proof.
  assert (Atoi "-1" = (-1, None)) as EA by reflexivity.
  assert (uint64 (-1) = 18446744073709551615) as EU by reflexivity.
  split; [reflexivity|]. split; [exact EA|]. split; [|split].
  - rewrite Retrace_calls. cbn zeta. rewrite EA. cbn [fst snd]. rewrite EU.
    destruct (blockByNumber db 18446744073709551615); cbn; tauto.
  - intros e He. rewrite Retrace_run. cbn zeta. rewrite EA. cbn [fst snd].
    rewrite EU, He. reflexivity.
  - intros s e He. rewrite Retrace_calls, Retrace_run. cbn zeta. rewrite He.
    split; reflexivity.
Qed.

(** C4 (amended). The resolver cannot return an error; it returns the
    configuration the decoder leaves when run on the stored bytes from the
    zero value, whether or not the decoder reports an error: the zero value
    itself whenever the decoder stored nothing.  An unknown chain name looks
    up the empty key.  The replay goes on with that configuration: every
    engine and finalization call carries it, and once the height parses and
    the block is found the error [Retrace] returns is the orchestrator's. *)
Theorem resolver_returns_what_the_decoder_left chain db (t : Trace) :
  let data := fst (bucketGet db ConfigPrefix (genesisKey chain)) in
  let decoded := fst (json_Unmarshal data ChainConfig_zero) in
  fst (ReadChainConfig db chain t) = decoded
  /\ (decoded = ChainConfig_zero -> fst (ReadChainConfig db chain t) = ChainConfig_zero)
  /\ (chain <> "mainnet" -> chain <> "testnet" -> chain <> "rinkeby" ->
      chain <> "goerli" -> genesisKey chain = [])
  /\ (forall blockNumber,
        Forall (usesConfig decoded)
          (newCalls t (snd (Retrace (BW := BW) blockNumber chain db t))))
  /\ (forall blockNumber block,
        snd (Atoi blockNumber) = None ->
        blockByNumber db (uint64 (fst (Atoi blockNumber))) = inl block ->
        snd (fst (Retrace (BW := BW) blockNumber chain db t)) =
        fst (replayOf decoded db (fst (Atoi blockNumber)) block
               (t ++ [CallGet ConfigPrefix (genesisKey chain);
                      CallBlockByNumber (uint64 (fst (Atoi blockNumber)))]))).
Proof.
  cbn zeta. rewrite ReadChainConfig_run. cbn [fst].
  split; [reflexivity|]. split; [trivial|]. split; [apply genesisKey_unknown|]. split.
  - intros blockNumber. rewrite Retrace_calls. cbn zeta.
    rewrite ReadChainConfig_run. cbn [fst].
    destruct (snd (Atoi blockNumber)); [repeat constructor|].
    destruct (blockByNumber db (uint64 (fst (Atoi blockNumber)))) as [block|e];
      [|repeat constructor].
    constructor; [exact I|]. constructor; [exact I|].
    unfold replayOf.
    match goal with
    | |- context [runBlock ?c ?b ?k ?m0] =>
        destruct (runBlock_after_opening c b k m0) as (rest & Hnew & _ & _ & Hcfg)
    end.
    cbn [boot calls] in Hnew. rewrite Hnew. apply Forall_app. split; [|exact Hcfg].
    apply opening_quiet.
  - intros blockNumber block HA HB. rewrite Retrace_run. cbn zeta.
    rewrite ReadChainConfig_run, HA, HB. cbn [fst snd]. rewrite <- app_assoc. cbn [app].
    destruct (fst (replayOf _ _ _ _ _)); reflexivity.
Qed.

(** C6. A replay fails exactly when [Retrace] returns an error, whichever
    phase failed: parsing the height, locating the block, a transaction,
    finalization or the commit; and whenever [Retrace] returns an error the
    response it returns with it is the zero value, with no reads and no
    writes. *)
Theorem failure_returns_zero_response blockNumber chain db (t : Trace) :
  let r := Retrace (BW := BW) blockNumber chain db t in
  let evs := newCalls t (snd r) in
  (replayFails blockNumber db evs <-> snd (fst r) <> None)
  /\ (snd (fst r) <> None ->
        fst (fst r) = RetraceResponse_zero
        /\ Reads (Account (fst (fst r))) = [] /\ Writes (Account (fst (fst r))) = []
        /\ Reads (Storage (fst (fst r))) = [] /\ Writes (Storage (fst (fst r))) = []).
Proof.
  cbn zeta. rewrite Retrace_calls. cbn zeta. rewrite Retrace_run. cbn zeta.
  rewrite ReadChainConfig_run. cbn [fst snd]. rewrite <- app_assoc. cbn [app].
  unfold replayFails.
  destruct (snd (Atoi blockNumber)) as [e|] eqn:EA; cbn [fst snd].
  { split; [split; [discriminate|intros _; left; discriminate]|].
    intros _. repeat split. }
  destruct (blockByNumber db (uint64 (fst (Atoi blockNumber)))) as [block|e] eqn:EB;
    cbn [fst snd].
  2:{ split; [split; [discriminate|]|intros _; repeat split].
      intros _. right. left. exists (uint64 (fst (Atoi blockNumber))), e.
      split; [cbn; tauto|exact EB]. }
  unfold replayOf.
  match goal with
  | |- context [runBlock ?c ?b ?k ?m0] =>
      pose proof (runBlock_failure_iff c b k m0) as Hfail;
      destruct (runBlock_after_opening c b k m0) as (rest & Hnew & _ & Hlook & _);
      set (run := runBlock c b k m0) in *
  end.
  cbn [boot calls] in Hfail, Hnew.
  assert (existsb is_lookup
            (newCalls (t ++ [CallGet ConfigPrefix (genesisKey chain);
                             CallBlockByNumber (uint64 (fst (Atoi blockNumber)))])
               (calls (snd run))) = false) as Hnolook.
  { rewrite Hnew, existsb_app, Hlook.
    destruct (opening_quiet
                (fst (json_Unmarshal (fst (bucketGet db ConfigPrefix (genesisKey chain)))
                        ChainConfig_zero)) block) as (_ & _ & _ & _ & _ & -> & _).
    reflexivity. }
  destruct (fst run) as [e|] eqn:Erun; cbn [fst snd].
  - split; [|intros _; repeat split].
    split; [discriminate|]. intros _. right. right. cbn [existsb failedCall].
    apply Hfail. discriminate.
  - split; [|intros Habs; now elim Habs].
    split; [|intros Habs; now elim Habs].
    intros [Hparse|[(n & e & Hin & Hn)|Hcall]].
    + now elim Hparse.
    + cbn [In] in Hin. destruct Hin as [Hin|[Hin|Hin]]; [discriminate| |].
      * injection Hin as <-. congruence.
      * exfalso. apply not_true_iff_false in Hnolook. apply Hnolook.
        apply existsb_exists. now exists (CallBlockByNumber n).
    + cbn [existsb failedCall orb] in Hcall. apply Hfail in Hcall. now elim Hcall.
Qed.

(** C7. A successful replay answers with four sequences of strings: the
    keys of the account change set, the account reads, the keys of the
    storage change set and the storage reads, each key rendered by
    [Bytes2Hex] and each sequence in the order the recorder or the reader
    holds it.  A rendering has two characters per byte, all of them in
    [0-9a-f], and decodes back to the bytes, so it carries no prefix. *)
Theorem response_is_hex_of_recorded_keys blockNumber chain db (t : Trace) resp :
  fst (Retrace (BW := BW) blockNumber chain db t) = (resp, None) ->
  (exists block m,
     blockByNumber db (uint64 (fst (Atoi blockNumber))) = inl block
     /\ replayOf (fst (ReadChainConfig db chain t)) db (fst (Atoi blockNumber)) block
          (t ++ [CallGet ConfigPrefix (genesisKey chain);
                 CallBlockByNumber (uint64 (fst (Atoi blockNumber)))])
          = (None, m)
     /\ Writes (Account resp) =
          map Bytes2Hex (map Key (Changes (fst (GetAccountChanges (blockWriter m)))))
     /\ Reads (Account resp) = map Bytes2Hex (GetAccountReads (stateReader (ibs m)))
     /\ Writes (Storage resp) =
          map Bytes2Hex (map Key (Changes (fst (GetStorageChanges (blockWriter m)))))
     /\ Reads (Storage resp) = map Bytes2Hex (GetStorageReads (stateReader (ibs m))))
  /\ (forall d, String.length (Bytes2Hex d) = (2 * List.length d)%nat
                /\ lowerHex (Bytes2Hex d) = true
                /\ Hex2Bytes (Bytes2Hex d) = Some d).
Proof.
  intros Hok. split.
  2:{ intros d. split; [apply Bytes2Hex_length|].
      split; [apply Bytes2Hex_lowerHex|apply Hex2Bytes_Bytes2Hex]. }
  rewrite Retrace_run in Hok. cbn zeta in Hok.
  destruct (snd (Atoi blockNumber)); [discriminate|].
  destruct (blockByNumber db (uint64 (fst (Atoi blockNumber)))) as [block|e];
    [|discriminate].
  rewrite ReadChainConfig_run in *. cbn [fst snd] in *.
  rewrite <- app_assoc in Hok. cbn [app] in Hok.
  match type of Hok with
  | context [replayOf ?c ?d ?n ?b ?t2] =>
      exists block, (snd (replayOf c d n b t2));
      destruct (replayOf c d n b t2) as [[e|] m]
  end; cbn [fst snd] in *; [discriminate|].
  injection Hok as <-. repeat split.
Qed.


(** C10. Once the height has parsed, the block has been found and
    [runBlock] has returned no error, [Retrace] returns no error and the
    response built from the change sets the accessors handed back, whatever
    errors [GetAccountChanges] and [GetStorageChanges] returned with them:
    both are dropped, and the check after [GetAccountChanges] tests the
    error of [runBlock] again. *)
Theorem change_set_errors_never_surface blockNumber chain db (t : Trace) block :
  snd (Atoi blockNumber) = None ->
  blockByNumber db (uint64 (fst (Atoi blockNumber))) = inl block ->
  let run := replayOf (fst (ReadChainConfig db chain t)) db (fst (Atoi blockNumber)) block
               (t ++ [CallGet ConfigPrefix (genesisKey chain);
                      CallBlockByNumber (uint64 (fst (Atoi blockNumber)))]) in
  fst run = None ->
  forall ea es,
    snd (GetAccountChanges (blockWriter (snd run))) = ea ->
    snd (GetStorageChanges (blockWriter (snd run))) = es ->
    fst (Retrace (BW := BW) blockNumber chain db t) = (responseOf (snd run), None).
Proof.
  intros HA HB run Hrun ea es _ _. subst run.
  rewrite Retrace_run. cbn zeta.
  rewrite ReadChainConfig_run in *. cbn [fst snd] in *.
  rewrite HA, HB, <- app_assoc. cbn [app]. rewrite Hrun. reflexivity.
Qed.

End EntryFacts.

(** ** The properties on the small chain *)

(** The renderings and the parser on a few inputs. *)
Example Bytes2Hex_sample : Bytes2Hex [x00; xff; x1a; xb2] = "00ff1ab2".
Proof. reflexivity. Qed.

Example Atoi_samples :
  Atoi "1920000" = (1920000, None)
  /\ Atoi "+5" = (5, None)
  /\ Atoi "-1" = (-1, None)
  /\ Atoi "" = (0, Some (NumError "Atoi" "" ErrSyntax))
  /\ Atoi "12a" = (0, Some (NumError "Atoi" "12a" ErrSyntax))
  /\ Atoi "9223372036854775808"
       = (9223372036854775807, Some (NumError "Atoi" "9223372036854775808" ErrRange)).
Proof. repeat split. Qed.

(** Block 6 of the small chain stops at its second transaction. *)
Example demo_rejected_transaction :
  fst (demoRetrace "6" "mainnet")
    = (RetraceResponse_zero, Some (Errorf "tx 00ab failed: nonce too low"))
  /\ map phase_of (snd (demoRetrace "6" "mainnet"))
     = [StoreQuery; StoreQuery; @ApplyTx demoTypes 1; @ApplyTx demoTypes 0].
Proof. split; vm_compute; reflexivity. Qed.

(** Blocks 13 and 14 fail in finalization and in the commit. *)
Example demo_late_failures :
  fst (demoRetrace "13" "mainnet")
    = (RetraceResponse_zero, Some (Errorf "finalize of block 13 failed: invalid uncle"))
  /\ fst (demoRetrace "14" "mainnet")
     = (RetraceResponse_zero, Some (Errorf "commiting block 14 failed: sink closed")).
Proof. split; vm_compute; reflexivity. Qed.

(** The height ["-1"] on the small chain: the store is asked for the last
    height a [uint64] can hold. *)
Example demo_negative_height :
  fst (demoRetrace "-1" "mainnet") = (RetraceResponse_zero, Some (Raised "block not found"))
  /\ map phase_of (snd (demoRetrace "-1" "mainnet")) = [StoreQuery; StoreQuery]
  /\ In (CallBlockByNumber 18446744073709551615) (snd (demoRetrace "-1" "mainnet")).
Proof. repeat split; vm_compute; auto. Qed.

(** Block 5 of the small chain writes account [01] twice; the log keeps it
    once, second in line, with the value of the third transaction. *)
Lemma write_log_witness :
  blockWriter demoMachine = NewChangeSetWriter
  /\ accountChanges (blockWriter (snd (demoRun demoMainnet (demoBlock 5 [1; 2; 3])))) =
       [ {| Key := [xda]; Value := [x01] |}; {| Key := [x01]; Value := [x03] |};
         {| Key := [x00]; Value := [x02] |}; {| Key := [xc0]; Value := [x02] |} ]
  /\ faithfulLog
       (accountWrites (committedNotes
          (newCalls (calls demoMachine)
             (calls (snd (demoRun demoMainnet (demoBlock 5 [1; 2; 3])))))))
       (Changes (fst (GetAccountChanges
          (blockWriter (snd (demoRun demoMainnet (demoBlock 5 [1; 2; 3]))))))).
Proof.
  split; [vm_compute; reflexivity|]. split; [vm_compute; reflexivity|].
  refine (proj1 (@write_log_first_write_last_value demoTypes demoCollaborators
                   NoopWriter NoopWriter_StateWriter demoMainnet
                   (NewRemoteContext demoDB) (demoBlock 5 [1; 2; 3]) demoMachine _)).
  vm_compute; reflexivity.
Defined.

(** The torn ropsten entry cannot be decoded, and the resolver returns a
    configuration with the fork height set, not the zero value. *)
Lemma resolver_counterexample :
  ~ (snd (@json_Unmarshal demoTypes demoCollaborators
            (fst (bucketGet demoDB (@ConfigPrefix demoTypes)
                    (@genesisKey demoTypes "testnet")))
            ChainConfig_zero) <> None ->
     fst (@ReadChainConfig demoTypes demoCollaborators demoDB "testnet" [])
       = ChainConfig_zero).
Proof.
  intros Hall.
  assert (fst (@ReadChainConfig demoTypes demoCollaborators demoDB "testnet" [])
          = ChainConfig_zero) as Hzero
    by (apply Hall; vm_compute; discriminate).
  vm_compute in Hzero. discriminate.
Qed.

(** The unknown chain ["kovan"] looks up the empty key, finds nothing, and
    the genesis block is replayed under the zero configuration without
    error. *)
Lemma resolver_witness :
  fst (@ReadChainConfig demoTypes demoCollaborators demoDB "kovan" []) = ChainConfig_zero
  /\ @genesisKey demoTypes "kovan" = []
  /\ snd (fst (demoRetrace "0" "kovan")) = None.
Proof.
  pose proof (@resolver_returns_what_the_decoder_left demoTypes demoCollaborators
                ChangeSetWriter ChangeSetWriter_Recorder "kovan" demoDB [])
    as (_ & Hzero & Hkey & _ & Hrun).
  split; [apply Hzero; vm_compute; reflexivity|].
  split; [apply Hkey; discriminate|].
  unfold demoRetrace. rewrite (Hrun "0" (demoBlock 0 [])) by (vm_compute; reflexivity).
  vm_compute. reflexivity.
Defined.

(** Block 5 under a configuration that names height 5 without supporting
    the fork: the height matches and the transition is not applied. *)
Lemma transition_counterexample :
  ~ (existsb is_transition
       (newCalls (calls demoMachine)
          (calls (snd (demoRun demoClassic (demoBlock 5 [1; 2; 3]))))) = true
     <-> DAOForkBlock demoClassic = Some (Number (header (demoBlock 5 [1; 2; 3])))).
Proof.
  intros [_ Hall].
  assert (existsb is_transition
            (newCalls (calls demoMachine)
               (calls (snd (demoRun demoClassic (demoBlock 5 [1; 2; 3]))))) = true) as Habs
    by (apply Hall; vm_compute; reflexivity).
  vm_compute in Habs. discriminate.
Qed.

(** Block 5 under the mainnet configuration: the transition is the first
    call. *)
Lemma transition_witness :
  (DAOForkSupport demoMainnet = true
   /\ DAOForkBlock demoMainnet = Some (Number (header (demoBlock 5 [1; 2; 3]))))
  /\ existsb is_transition
       (newCalls (calls demoMachine)
          (calls (snd (demoRun demoMainnet (demoBlock 5 [1; 2; 3]))))) = true
  /\ exists rest,
       newCalls (calls demoMachine)
         (calls (snd (demoRun demoMainnet (demoBlock 5 [1; 2; 3]))))
       = CallApplyDAOHardFork :: rest
       /\ existsb is_transition rest = false.
Proof.
  pose proof (@transition_iff_supported_fork_block demoTypes demoCollaborators
                NoopWriter ChangeSetWriter _ _ demoMainnet (NewRemoteContext demoDB)
                (demoBlock 5 [1; 2; 3]) demoMachine) as (Hiff & Hfirst & _).
  assert (DAOForkSupport demoMainnet = true
          /\ DAOForkBlock demoMainnet = Some (Number (header (demoBlock 5 [1; 2; 3]))))
    as Hdue by (split; vm_compute; reflexivity).
  split; [exact Hdue|]. split; [exact (proj2 Hiff Hdue)|].
  exact (proj2 (Hfirst (proj2 Hiff Hdue))).
Defined.

(** Block 6 of the small chain: its second transaction is rejected, and the
    answer is the error with the zero response. *)
Lemma failure_witness :
  snd (fst (demoRetrace "6" "mainnet")) <> None
  /\ replayFails "6" demoDB (newCalls [] (snd (demoRetrace "6" "mainnet")))
  /\ fst (fst (demoRetrace "6" "mainnet")) = RetraceResponse_zero.
Proof.
  unfold demoRetrace.
  pose proof (@failure_returns_zero_response demoTypes demoCollaborators
                ChangeSetWriter ChangeSetWriter_Recorder "6" "mainnet" demoDB []) as W.
  cbv zeta in W. destruct W as (Hiff & Hzero).
  assert (snd (fst (@Retrace demoTypes demoCollaborators ChangeSetWriter
                      ChangeSetWriter_Recorder "6" "mainnet" demoDB [])) <> None) as Herr
    by (vm_compute; discriminate).
  split; [exact Herr|]. split; [exact (proj2 Hiff Herr)|exact (proj1 (Hzero Herr))].
Defined.

(** Block 5 of the small chain: the whole plan is carried out. *)
Lemma phases_witness :
  fst (demoRun demoMainnet (demoBlock 5 [1; 2; 3])) = None
  /\ map phase_of
       (newCalls (calls demoMachine)
          (calls (snd (demoRun demoMainnet (demoBlock 5 [1; 2; 3])))))
     = schedule (isDAOForkBlock demoMainnet (demoBlock 5 [1; 2; 3]))
         (transactions (demoBlock 5 [1; 2; 3])).
Proof.
  unfold demoRun.
  pose proof (@phases_in_fixed_order demoTypes demoCollaborators
                NoopWriter ChangeSetWriter _ _ demoMainnet (NewRemoteContext demoDB)
                (demoBlock 5 [1; 2; 3]) demoMachine) as W.
  cbv zeta in W. destruct W as (_ & Hplan & _).
  assert (fst (@runBlock demoTypes demoCollaborators NoopWriter ChangeSetWriter _ _
                 demoMainnet (NewRemoteContext demoDB) (demoBlock 5 [1; 2; 3])
                 demoMachine) = None) as Hok
    by (vm_compute; reflexivity).
  split; [exact Hok|]. exact (Hplan Hok).
Defined.

(** Block 5 of the small chain: the response. *)
Lemma response_witness :
  fst (demoRetrace "5" "mainnet") = (demoResponse5, None)
  /\ (forall d, String.length (Bytes2Hex d) = (2 * List.length d)%nat
                /\ lowerHex (Bytes2Hex d) = true
                /\ Hex2Bytes (Bytes2Hex d) = Some d).
Proof.
  unfold demoRetrace.
  assert (fst (@Retrace demoTypes demoCollaborators ChangeSetWriter
                 ChangeSetWriter_Recorder "5" "mainnet" demoDB [])
          = (demoResponse5, None)) as Hok
    by (vm_compute; reflexivity).
  split; [exact Hok|].
  exact (proj2 (@response_is_hex_of_recorded_keys demoTypes demoCollaborators
                  ChangeSetWriter ChangeSetWriter_Recorder "5" "mainnet" demoDB []
                  demoResponse5 Hok)).
Defined.

(** Block 5 of the small chain with the faulty recorder: both accessors
    report an error and [Retrace] returns none. *)
Lemma change_set_errors_witness :
  snd (@GetAccountChanges FaultyRecorder FaultyRecorder_Recorder
         (blockWriter (snd (@replayOf demoTypes demoCollaborators FaultyRecorder
                              FaultyRecorder_Recorder demoMainnet demoDB 5
                              (demoBlock 5 [1; 2; 3])
                              [CallGet (@ConfigPrefix demoTypes)
                                 (@MainnetGenesisHash demoTypes);
                               CallBlockByNumber 5]))))
    = Some (Raised "account change set")
  /\ fst (demoFaultyRetrace "5" "mainnet") = (demoResponse5, None).
Proof.
  split; [vm_compute; reflexivity|]. unfold demoFaultyRetrace.
  assert (@responseOf demoTypes FaultyRecorder FaultyRecorder_Recorder
            (snd (@replayOf demoTypes demoCollaborators FaultyRecorder
                    FaultyRecorder_Recorder
                    (fst (@ReadChainConfig demoTypes demoCollaborators demoDB "mainnet" []))
                    demoDB (fst (Atoi "5")) (demoBlock 5 [1; 2; 3])
                    ([] ++ [CallGet (@ConfigPrefix demoTypes) (@genesisKey demoTypes "mainnet");
                            CallBlockByNumber (uint64 (fst (Atoi "5")))])))
          = demoResponse5) as <- by (vm_compute; reflexivity).
  refine (@change_set_errors_never_surface demoTypes demoCollaborators
            FaultyRecorder FaultyRecorder_Recorder "5" "mainnet" demoDB []
            (demoBlock 5 [1; 2; 3]) _ _ _
            (Some (Raised "account change set")) (Some (Raised "storage change set"))
            _ _); vm_compute; reflexivity.
Defined.

(** * Further properties *)

(** ** Heights in decimal *)

Lemma parse_digits_acc d : forall acc,
  parse_digits (Z.pos acc) (NilEmpty.string_of_uint d) = Some (Z.pos (Pos.of_uint_acc d acc)).
Proof.
  induction d as [|d IH|d IH|d IH|d IH|d IH|d IH|d IH|d IH|d IH|d IH]; intros acc;
    [reflexivity|..];
    cbn [NilEmpty.string_of_uint Pos.of_uint_acc parse_digits];
    match goal with
    | |- context [digit_of ?c] =>
        let v := eval vm_compute in (digit_of c) in change (digit_of c) with v
    end;
    cbv iota beta; rewrite <- IH; f_equal; lia.
Qed.

Lemma parse_digits_of_uint d :
  parse_digits 0 (NilEmpty.string_of_uint d) = Some (Z.of_N (Pos.of_uint d)).
Proof.
  induction d as [|d IH|d IH|d IH|d IH|d IH|d IH|d IH|d IH|d IH|d IH];
    [reflexivity|exact IH|..];
    cbn [NilEmpty.string_of_uint Pos.of_uint parse_digits];
    match goal with
    | |- context [digit_of ?c] =>
        let v := eval vm_compute in (digit_of c) in change (digit_of c) with v
    end;
    cbv iota beta; cbn [Z.mul Z.add Z.of_N]; apply parse_digits_acc.
Qed.

Lemma parse_digits_fmt_d n : 0 <= n -> parse_digits 0 (fmt_d n) = Some n.
Proof.
  intros Hn. unfold fmt_d. rewrite parse_digits_of_uint.
  change (Pos.of_uint (N.to_uint (Z.to_N n))) with (N.of_uint (N.to_uint (Z.to_N n))).
  rewrite DecimalN.Unsigned.of_to, Z2N.id by exact Hn. reflexivity.
Qed.

(** A rendered height starts with a digit. *)
Lemma fmt_d_head n : exists c rest, fmt_d n = String c rest /\ is_sign c = false.
Proof.
  unfold fmt_d.
  assert (N.to_uint (Z.to_N n) <> Decimal.Nil) as Hnil.
  { destruct (Z.to_N n) as [|p]; cbn; [discriminate|].
    apply DecimalPos.Unsigned.to_uint_nonnil. }
  destruct (N.to_uint (Z.to_N n)); [now elim Hnil|..];
    cbn [NilEmpty.string_of_uint]; eexists _, _; split; reflexivity.
Qed.

Lemma is_sign_minus c : is_sign c = false -> Ascii.eqb c "-" = false.
Proof. unfold is_sign. now intros [Hm _]%orb_false_iff. Qed.


Lemma Atoi_fmt_d_range n :
  maxInt64 < n -> Atoi (fmt_d n) = (maxInt64, Some (NumError "Atoi" (fmt_d n) ErrRange)).
Proof.
  intros Hhi.
  assert (0 <= n) as Hlo by (unfold maxInt64 in Hhi; lia).
  pose proof (parse_digits_fmt_d n Hlo) as Hp.
  destruct (fmt_d_head n) as (c & rest & Hs & Hc).
  rewrite Hs in *. unfold Atoi. rewrite Hc, Hp, (is_sign_minus c Hc).
  assert ((n <? minInt64) = false) as -> by (apply Z.ltb_ge; unfold minInt64; lia).
  assert ((maxInt64 <? n) = true) as -> by (apply Z.ltb_lt; lia).
  reflexivity.
Qed.


Lemma existsb_false_filter {X : Type} (f : X -> bool) (l : list X) :
  existsb f l = false -> filter f l = [].
Proof.
  induction l as [|x l IH]; cbn; [reflexivity|].
  intros [Hx Hl]%orb_false_iff. rewrite Hx. now apply IH.
Qed.

(** ** The orchestrator makes no store query *)

Section NoStoreFacts.
Context `{Collaborators}.
Context {TW BW : Type} `{StateWriter TW} `{StateWriter BW}.

Lemma runBlock_no_store_calls chainConfig bcb block (m : @Machine _ TW BW) :
  existsb is_store
    (newCalls (calls m) (calls (snd (runBlock chainConfig bcb block m)))) = false.
Proof.
  assert (existsb is_store (opening chainConfig block) = false) as Ho
    by (unfold opening; now destruct (isDAOForkBlock chainConfig block)).
  assert (forall txs rs, existsb is_store (accepted chainConfig txs rs) = false) as Ha.
  { intros txs rs. unfold accepted.
    induction (combine txs rs) as [|p ps IH]; [reflexivity|exact IH]. }
  destruct (runBlock chainConfig bcb block m) as [err m'] eqn:Shape.
  apply runBlock_shape_of in Shape. cbn [snd].
  destruct Shape as [pre post tx cause m2 _ _ _ _ Hc
                    |cause m2 m3 _ _ _ _ Hc
                    |s notes failed m2 m3 _ _ _ _ _ Hc];
    rewrite Hc, newCalls_app, !existsb_app, Ho, Ha; reflexivity.
Qed.

(** A run without error carries out the whole plan. *)
Lemma runBlock_success_plan chainConfig bcb block (m : @Machine _ TW BW) :
  fst (runBlock chainConfig bcb block m) = None ->
  map phase_of (newCalls (calls m) (calls (snd (runBlock chainConfig bcb block m))))
  = schedule (isDAOForkBlock chainConfig block) (transactions block).
Proof.
  destruct (runBlock chainConfig bcb block m) as [err m'] eqn:Shape.
  apply runBlock_shape_of in Shape. cbn [fst snd].
  destruct Shape as [pre post tx cause m2 _ _ _ _ Hc
                    |cause m2 m3 _ _ _ _ Hc
                    |s notes failed m2 m3 _ Hlen _ _ _ Hc]; try discriminate.
  intros _. rewrite Hc, newCalls_app, !map_app, accepted_phases, opening_phases by exact Hlen.
  reflexivity.
Qed.

End NoStoreFacts.


(** ** The loop over a block cut in two *)

Section LoopFacts.
Context `{Collaborators}.
Context {TW BW : Type} `{StateWriter TW} `{StateWriter BW}.

(** X7. Running the loop over [txs1 ++ txs2] is running it over [txs1]
    and then, when that returned no error, over [txs2] from the machine it
    left; when it returned an error, that error and that machine are the
    result and no transaction of [txs2] is attempted. *)
Theorem forTransactions_app chainConfig bcb hd txs1 txs2 (m : @Machine _ TW BW) :
  forTransactions chainConfig bcb hd (txs1 ++ txs2) m =
  match fst (forTransactions chainConfig bcb hd txs1 m) with
  | Some err => forTransactions chainConfig bcb hd txs1 m
  | None =>
      forTransactions chainConfig bcb hd txs2
        (snd (forTransactions chainConfig bcb hd txs1 m))
  end.
Proof.
  revert m. induction txs1 as [|tx txs1 IH]; intros m; [reflexivity|].
  cbn [app]. rewrite !forTransactions_cons. cbn zeta.
  destruct (ap_result (ApplyTransaction chainConfig bcb (gp m) (ibs m) hd tx (usedGas m)))
    as [receipt|cause]; [apply IH|reflexivity].
Qed.

(** The error of a run names the call that failed. *)
Lemma runBlock_error_provenance chainConfig bcb block (m : @Machine _ TW BW) e :
  fst (runBlock chainConfig bcb block m) = Some e ->
  let evs := newCalls (calls m) (calls (snd (runBlock chainConfig bcb block m))) in
  (exists tx cause,
     In tx (transactions block)
     /\ In (CallApplyTransaction chainConfig tx (inr cause)) evs
     /\ e = txFailed tx cause)
  \/ (exists s rs cause,
        In (CallFinalizeAndAssemble chainConfig s (transactions block) rs (Some cause)) evs
        /\ e = finalizeFailed block cause)
  \/ (exists s notes cause,
        In (CallCommitBlock s notes (Some cause)) evs
        /\ e = commitFailed block cause).
Proof.
  destruct (runBlock chainConfig bcb block m) as [err m'] eqn:Shape.
  apply runBlock_shape_of in Shape. cbn [fst snd].
  destruct Shape as [pre post tx cause m2 _ Htx _ _ Hc
                    |cause m2 m3 _ _ _ _ Hc
                    |s notes failed m2 m3 _ _ _ _ _ Hc];
    intros He; cbn zeta; rewrite Hc, newCalls_app.
  - injection He as <-. left. exists tx, cause. split; [rewrite Htx; apply in_elt|].
    split; [|reflexivity]. rewrite !in_app_iff. cbn. tauto.
  - injection He as <-. right. left. eexists _, _, cause. split; [|reflexivity].
    rewrite !in_app_iff. cbn. tauto.
  - right. right. destruct failed as [cause|]; [|discriminate].
    cbn in He. injection He as <-.
    exists s, notes, cause. split; [|reflexivity].
    rewrite !in_app_iff. cbn. tauto.
Qed.

End LoopFacts.

(** ** Error texts *)

Lemma hex_then_space (h1 h2 r1 r2 : string) :
  lowerHex h1 = true -> lowerHex h2 = true ->
  (h1 ++ String " " r1)%string = (h2 ++ String " " r2)%string ->
  h1 = h2 /\ r1 = r2.
Proof.
  revert h2. induction h1 as [|a h1 IH]; intros [|b h2] L1 L2 E; cbn in E.
  - injection E as ->. split; reflexivity.
  - injection E as <- _. cbn in L2. discriminate.
  - injection E as -> _. cbn in L1. discriminate.
  - injection E as -> E. cbn in L1, L2.
    destruct (fromHexChar b); [|discriminate].
    destruct (IH h2 L1 L2 E) as [-> ->]. split; reflexivity.
Qed.

Lemma fmt_x_inj (a b : bytes) : fmt_x a = fmt_x b -> a = b.
Proof.
  intros E. apply (f_equal Hex2Bytes) in E.
  change (fmt_x a) with (Bytes2Hex a) in E. change (fmt_x b) with (Bytes2Hex b) in E.
  rewrite !Hex2Bytes_Bytes2Hex in E. congruence.
Qed.

Section ErrorTextFacts.
Context `{ChainTypes}.

(** X3. The error text of a rejected transaction determines the hash of
    the transaction and the text of the cause: the hexadecimal hash ends at
    the first space.  It is never the text of a failed finalization or of a
    failed commit. *)
Theorem rejected_transaction_text_names_one_hash
    (tx1 tx2 : Transaction) (cause1 cause2 : error) :
  Errorf ("tx " ++ fmt_x (tx_Hash tx1) ++ " failed: " ++ Error cause1)%string
  = Errorf ("tx " ++ fmt_x (tx_Hash tx2) ++ " failed: " ++ Error cause2)%string ->
  tx_Hash tx1 = tx_Hash tx2
  /\ Error cause1 = Error cause2
  /\ (forall block cause,
        Errorf ("tx " ++ fmt_x (tx_Hash tx1) ++ " failed: " ++ Error cause1)%string
          <> finalizeFailed block cause
        /\ Errorf ("tx " ++ fmt_x (tx_Hash tx1) ++ " failed: " ++ Error cause1)%string
             <> commitFailed block cause).
Proof.
  intros E. injection E as E.
  apply hex_then_space in E; try apply Bytes2Hex_lowerHex.
  destruct E as [Eh Er]. injection Er as Er.
  split; [now apply fmt_x_inj|]. split; [exact Er|].
  intros block cause. unfold finalizeFailed, commitFailed. split; intros Habs;
    injection Habs as Habs; cbn [String.append] in Habs; discriminate.
Qed.

End ErrorTextFacts.

Lemma Atoi_error s e :
  snd (Atoi s) = Some e -> e = NumError "Atoi" s ErrSyntax \/ e = NumError "Atoi" s ErrRange.
Proof.
  unfold Atoi. destruct s as [|c rest]; cbn [snd]; [intros [= <-]; now left|].
  destruct (if is_sign c then rest else String c rest) as [|c' rest'];
    [intros [= <-]; now left|].
  destruct (parse_digits 0 (String c' rest')) as [un|]; [|intros [= <-]; now left].
  cbv zeta.
  destruct ((if Ascii.eqb c "-" then - un else un) <? minInt64);
    [intros [= <-]; now right|].
  destruct (maxInt64 <? (if Ascii.eqb c "-" then - un else un));
    [intros [= <-]; now right|discriminate].
Qed.

(** ** More on the entry point *)

Section MoreEntryFacts.
Context `{Collaborators}.
Context {BW : Type} `{ChangeSetRecorder BW}.

(** The store queries of [Retrace]. *)
Lemma Retrace_store_calls blockNumber chain db (t : Trace) :
  filter is_store (newCalls t (snd (Retrace (BW := BW) blockNumber chain db t))) =
  CallGet ConfigPrefix (genesisKey chain)
    :: match snd (Atoi blockNumber) with
       | Some _ => []
       | None => [CallBlockByNumber (uint64 (fst (Atoi blockNumber)))]
       end.
Proof.
  rewrite Retrace_calls. cbn zeta.
  destruct (snd (Atoi blockNumber)); [reflexivity|].
  destruct (blockByNumber db (uint64 (fst (Atoi blockNumber)))) as [block|e];
    [|reflexivity].
  cbn [filter is_store]. do 2 f_equal. unfold replayOf.
  match goal with
  | |- context [runBlock ?c ?b ?k ?m0] =>
      pose proof (runBlock_no_store_calls c b k m0) as Hno
  end.
  cbn [boot calls] in Hno. now apply existsb_false_filter.
Qed.




(** X5. A height of [2^63] or more, written in decimal, is rejected with
    the range error of [Atoi] and the zero response, and no block is looked
    up: the heights from [2^63] to [2^64 - 1], which the store's height type
    can hold, cannot be asked for by their decimal names. *)
Theorem heights_from_2_63_are_rejected n chain db (t : Trace) :
  maxInt64 < n ->
  fst (Retrace (BW := BW) (fmt_d n) chain db t)
    = (RetraceResponse_zero, Some (NumError "Atoi" (fmt_d n) ErrRange))
  /\ newCalls t (snd (Retrace (BW := BW) (fmt_d n) chain db t))
     = [CallGet ConfigPrefix (genesisKey chain)].
Proof.
  intros Hn. pose proof (Atoi_fmt_d_range n Hn) as EA. split.
  - rewrite Retrace_run. cbn zeta. now rewrite EA.
  - rewrite Retrace_calls. cbn zeta. now rewrite EA.
Qed.


(** X9. When [Retrace] returns no error, the block was found and its
    calls are the two store queries followed by the whole plan for that
    block under the resolved configuration: the transition when due, every
    transaction of the block in order, finalization and the commit. *)
Theorem success_means_whole_plan blockNumber chain db (t : Trace) resp :
  fst (Retrace (BW := BW) blockNumber chain db t) = (resp, None) ->
  exists block,
    blockByNumber db (uint64 (fst (Atoi blockNumber))) = inl block
    /\ map phase_of (newCalls t (snd (Retrace (BW := BW) blockNumber chain db t)))
       = StoreQuery :: StoreQuery
           :: schedule (isDAOForkBlock (fst (ReadChainConfig db chain t)) block)
                (transactions block).
Proof.
  rewrite Retrace_calls. cbn zeta. rewrite Retrace_run. cbn zeta.
  rewrite ReadChainConfig_run. cbn [fst snd].
  destruct (snd (Atoi blockNumber)); [discriminate|].
  destruct (blockByNumber db (uint64 (fst (Atoi blockNumber)))) as [block|e];
    [|discriminate].
  rewrite <- app_assoc. cbn [app]. unfold replayOf.
  match goal with
  | |- context [runBlock ?c ?b ?k ?m0] =>
      pose proof (runBlock_success_plan c b k m0) as Hplan;
      set (run := runBlock c b k m0) in *
  end.
  cbn [boot calls] in Hplan.
  destruct (fst run) as [e|]; [discriminate|]. intros _.
  exists block. split; [reflexivity|].
  cbn [map phase_of]. now rewrite Hplan.
Qed.

(** X2. An error returned by [Retrace] is the error of [Atoi] as it is, or
    the error of the block lookup as it is, or a new error whose text names
    the phase that failed: the hash of the rejected transaction, or the
    number of the block whose finalization or commit failed, followed by the
    text of the error that the failed call returned. *)
Theorem errors_name_their_phase blockNumber chain db (t : Trace) e :
  snd (fst (Retrace (BW := BW) blockNumber chain db t)) = Some e ->
  let chainConfig := fst (ReadChainConfig db chain t) in
  let evs := newCalls t (snd (Retrace (BW := BW) blockNumber chain db t)) in
  (snd (Atoi blockNumber) = Some e
   /\ (e = NumError "Atoi" blockNumber ErrSyntax \/ e = NumError "Atoi" blockNumber ErrRange))
  \/ (snd (Atoi blockNumber) = None
      /\ blockByNumber db (uint64 (fst (Atoi blockNumber))) = inr e)
  \/ (exists block,
        blockByNumber db (uint64 (fst (Atoi blockNumber))) = inl block
        /\ ((exists tx cause,
               In tx (transactions block)
               /\ In (CallApplyTransaction chainConfig tx (inr cause)) evs
               /\ e = Errorf ("tx " ++ fmt_x (tx_Hash tx) ++ " failed: "
                                ++ Error cause)%string)
            \/ (exists s rs cause,
                  In (CallFinalizeAndAssemble chainConfig s (transactions block) rs
                        (Some cause)) evs
                  /\ e = Errorf ("finalize of block " ++ fmt_d (NumberU64 block)
                                   ++ " failed: " ++ Error cause)%string)
            \/ (exists s notes cause,
                  In (CallCommitBlock s notes (Some cause)) evs
                  /\ e = Errorf ("commiting block " ++ fmt_d (NumberU64 block)
                                   ++ " failed: " ++ Error cause)%string))).
Proof.
  cbn zeta. rewrite Retrace_calls. cbn zeta. rewrite Retrace_run. cbn zeta.
  rewrite ReadChainConfig_run. cbn [fst snd].
  destruct (snd (Atoi blockNumber)) as [e0|] eqn:EA; cbn [fst snd].
  { intros [= ->]. left. split; [reflexivity|]. now apply Atoi_error. }
  destruct (blockByNumber db (uint64 (fst (Atoi blockNumber)))) as [block|e0];
    cbn [fst snd].
  2:{ intros [= ->]. right. left. split; reflexivity. }
  rewrite <- app_assoc. cbn [app]. unfold replayOf.
  match goal with
  | |- context [runBlock ?c ?b ?k ?m0] =>
      pose proof (runBlock_error_provenance c b k m0 e) as Hprov;
      set (run := runBlock c b k m0) in *
  end.
  cbn [boot calls] in Hprov. cbn zeta in Hprov.
  destruct (fst run) as [e0|]; cbn [fst snd]; [|discriminate].
  intros [= ->]. specialize (Hprov eq_refl).
  right. right. exists block. split; [reflexivity|].
  destruct Hprov as [(tx & cause & Htx & Hin & ->)
                    |[(s & rs & cause & Hin & ->)|(s & notes & cause & Hin & ->)]].
  - left. exists tx, cause. repeat split; [exact Htx|now do 2 right].
  - right. left. exists s, rs, cause. split; [now do 2 right|reflexivity].
  - right. right. exists s, notes, cause. split; [now do 2 right|reflexivity].
Qed.

(** [Retrace] returns an error exactly when the replay fails, and then with
    the zero response. *)
Lemma Retrace_error_iff_fails blockNumber chain db (t : Trace) :
  replayFails blockNumber db
    (newCalls t (snd (Retrace (BW := BW) blockNumber chain db t)))
  <-> snd (fst (Retrace (BW := BW) blockNumber chain db t)) <> None.
Proof.
  pose proof (Retrace_store_calls blockNumber chain db t) as Hstore.
  revert Hstore.
  rewrite Retrace_calls. cbn zeta. rewrite Retrace_run. cbn zeta.
  rewrite ReadChainConfig_run. cbn [fst snd]. rewrite <- app_assoc. cbn [app].
  unfold replayFails.
  destruct (snd (Atoi blockNumber)) as [e|] eqn:EA; cbn [fst snd].
  { intros _. split; [discriminate|intros _; left; discriminate]. }
  destruct (blockByNumber db (uint64 (fst (Atoi blockNumber)))) as [block|e] eqn:EB;
    cbn [fst snd].
  2:{ intros _. split; [discriminate|].
      intros _. right. left. exists (uint64 (fst (Atoi blockNumber))), e.
      split; [cbn; tauto|exact EB]. }
  unfold replayOf.
  match goal with
  | |- context [runBlock ?c ?b ?k ?m0] =>
      pose proof (runBlock_failure_iff c b k m0) as Hfail;
      set (run := runBlock c b k m0) in *
  end.
  cbn [boot calls] in Hfail. intros Hstore.
  destruct (fst run) as [e|] eqn:Erun; cbn [fst snd].
  - split; [discriminate|]. intros _. right. right. cbn [existsb failedCall].
    apply Hfail. discriminate.
  - split; [|intros Habs; now elim Habs].
    intros [Hparse|[(n & e & Hin & Hn)|Hcall]].
    + now elim Hparse.
    + assert (In (CallBlockByNumber n)
                [CallGet ConfigPrefix (genesisKey chain);
                 CallBlockByNumber (uint64 (fst (Atoi blockNumber)))]) as Hin'
        by (rewrite <- Hstore; apply filter_In; split; [exact Hin|reflexivity]).
      destruct Hin' as [Hin'|[Hin'|[]]]; [discriminate|].
      injection Hin' as <-. congruence.
    + cbn [existsb failedCall orb] in Hcall. apply Hfail in Hcall. now elim Hcall.
Qed.

Lemma GetWritesReads_run (e : Env) (c : Params) (t : Trace) :
  GetWritesReads (BW := BW) e c t =
  (match snd (fst (Retrace (BW := BW) (Param c "number") (Param c "chain") (DB e) t)) with
   | Some err => AbortWithError StatusInternalServerError err
   | None =>
       JSON StatusOK
         (fst (fst (Retrace (BW := BW) (Param c "number") (Param c "chain") (DB e) t)))
   end,
   snd (Retrace (BW := BW) (Param c "number") (Param c "chain") (DB e) t)).
Proof.
  unfold GetWritesReads, bind.
  destruct (Retrace (Param c "number") (Param c "chain") (DB e) t) as [[results [err|]] t'];
    reflexivity.
Qed.

(** X1. The handler passes the URL parameters [number] and [chain] to
    [Retrace] and makes the calls [Retrace] makes.  It answers 500 with the
    error of [Retrace], and without a body, exactly when the replay fails;
    otherwise it answers 200 with the response of [Retrace].  No other
    status is produced. *)
Theorem handler_answers_200_or_500 (e : Env) (c : Params) (t : Trace) :
  let r := GetWritesReads (BW := BW) e c t in
  let ran := Retrace (BW := BW) (Param c "number") (Param c "chain") (DB e) t in
  snd r = snd ran
  /\ (replayFails (Param c "number") (DB e) (newCalls t (snd r)) ->
        exists err,
          fst r = AbortWithError 500 err
          /\ fst ran = (RetraceResponse_zero, Some err))
  /\ (~ replayFails (Param c "number") (DB e) (newCalls t (snd r)) ->
        exists results, fst r = JSON 200 results /\ fst ran = (results, None))
  /\ (statusOf (fst r) = 200 \/ statusOf (fst r) = 500).
Proof.
  cbn zeta. rewrite GetWritesReads_run. cbn [fst snd].
  pose proof (Retrace_error_iff_fails (Param c "number") (Param c "chain") (DB e) t)
    as Hiff.
  pose proof (Retrace_run (Param c "number") (Param c "chain") (DB e) t) as Hrun.
  cbn zeta in Hrun.
  destruct (Retrace (Param c "number") (Param c "chain") (DB e) t)
    as [[results [err|]] t'] eqn:ER; cbn [fst snd] in *.
  - split; [reflexivity|]. split; [|split; [|now right]].
    + intros _. exists err. split; [reflexivity|].
      destruct (snd (Atoi (Param c "number"))); [now injection Hrun as -> ->|].
      destruct (blockByNumber (DB e) _); [|now injection Hrun as -> ->].
      destruct (fst (replayOf _ _ _ _ _)); [now injection Hrun as -> ->|].
      discriminate.
    + intros Hno. exfalso. apply Hno, Hiff. discriminate.
  - split; [reflexivity|]. split; [|split; [|now left]].
    + intros Hf. apply Hiff in Hf. now elim Hf.
    + intros _. now exists results.
Qed.

End MoreEntryFacts.

(** ** The further properties on the small chain *)


(** Height [2^63] in decimal: rejected after the configuration lookup. *)
Lemma range_rejection_witness :
  maxInt64 < 9223372036854775808
  /\ fst (@Retrace demoTypes demoCollaborators ChangeSetWriter
            ChangeSetWriter_Recorder (fmt_d 9223372036854775808) "mainnet" demoDB [])
     = (RetraceResponse_zero,
        Some (NumError "Atoi" (fmt_d 9223372036854775808) ErrRange))
  /\ newCalls []
       (snd (@Retrace demoTypes demoCollaborators ChangeSetWriter
               ChangeSetWriter_Recorder (fmt_d 9223372036854775808) "mainnet" demoDB []))
     = [CallGet (@ConfigPrefix demoTypes) (@genesisKey demoTypes "mainnet")].
Proof.
  assert (maxInt64 < 9223372036854775808) as Hn by (unfold maxInt64; lia).
  split; [exact Hn|].
  exact (@heights_from_2_63_are_rejected demoTypes demoCollaborators
           ChangeSetWriter ChangeSetWriter_Recorder 9223372036854775808 "mainnet"
           demoDB [] Hn).
Defined.


(** Transactions 1 and 257 of the small chain have one hash: their
    rejections read the same, and the text gives the hash. *)
Lemma rejection_text_witness :
  Errorf ("tx " ++ fmt_x (@tx_Hash demoTypes 1) ++ " failed: "
            ++ Error (Raised "nonce too low"))%string
  = Errorf ("tx " ++ fmt_x (@tx_Hash demoTypes 257) ++ " failed: "
              ++ Error (Raised "nonce too low"))%string
  /\ @tx_Hash demoTypes 1 = @tx_Hash demoTypes 257.
Proof.
  assert (Errorf ("tx " ++ fmt_x (@tx_Hash demoTypes 1) ++ " failed: "
                    ++ Error (Raised "nonce too low"))%string
          = Errorf ("tx " ++ fmt_x (@tx_Hash demoTypes 257) ++ " failed: "
                      ++ Error (Raised "nonce too low"))%string) as E
    by (vm_compute; reflexivity).
  split; [exact E|].
  exact (proj1 (@rejected_transaction_text_names_one_hash demoTypes 1 257
                  (Raised "nonce too low") (Raised "nonce too low") E)).
Defined.

(** Block 5 of the small chain: two store queries, then the whole plan. *)
Lemma whole_plan_witness :
  fst (@Retrace demoTypes demoCollaborators ChangeSetWriter
         ChangeSetWriter_Recorder "5" "mainnet" demoDB [])
    = (demoResponse5, None)
  /\ exists block,
       blockByNumber demoDB (uint64 (fst (Atoi "5"))) = inl block
       /\ map phase_of
            (newCalls []
               (snd (@Retrace demoTypes demoCollaborators ChangeSetWriter
                       ChangeSetWriter_Recorder "5" "mainnet" demoDB [])))
          = StoreQuery :: StoreQuery
              :: schedule
                   (isDAOForkBlock
                      (fst (@ReadChainConfig demoTypes demoCollaborators demoDB
                              "mainnet" []))
                      block)
                   (transactions block).
Proof.
  assert (fst (@Retrace demoTypes demoCollaborators ChangeSetWriter
                 ChangeSetWriter_Recorder "5" "mainnet" demoDB [])
          = (demoResponse5, None)) as Hok
    by (vm_compute; reflexivity).
  split; [exact Hok|].
  exact (@success_means_whole_plan demoTypes demoCollaborators ChangeSetWriter
           ChangeSetWriter_Recorder "5" "mainnet" demoDB [] demoResponse5 Hok).
Defined.

(** Block 6 of the small chain: the error is neither the parser's nor the
    store's, and names a transaction of the block. *)
Lemma error_phase_witness :
  snd (fst (@Retrace demoTypes demoCollaborators ChangeSetWriter
              ChangeSetWriter_Recorder "6" "mainnet" demoDB []))
    = Some (Errorf "tx 00ab failed: nonce too low")
  /\ exists block tx cause,
       blockByNumber demoDB (uint64 (fst (Atoi "6"))) = inl block
       /\ In tx (transactions block)
       /\ Errorf "tx 00ab failed: nonce too low"
          = Errorf ("tx " ++ fmt_x (@tx_Hash demoTypes tx) ++ " failed: "
                      ++ Error cause)%string.
Proof.
  assert (snd (fst (@Retrace demoTypes demoCollaborators ChangeSetWriter
                      ChangeSetWriter_Recorder "6" "mainnet" demoDB []))
          = Some (Errorf "tx 00ab failed: nonce too low")) as Herr
    by (vm_compute; reflexivity).
  split; [exact Herr|].
  pose proof (@errors_name_their_phase demoTypes demoCollaborators ChangeSetWriter
                ChangeSetWriter_Recorder "6" "mainnet" demoDB []
                (Errorf "tx 00ab failed: nonce too low") Herr) as W.
  cbv zeta in W.
  destruct W as [[HA _]
                |[[_ HB]
                 |(block & Hb & [(tx & cause & Htx & _ & He)
                                |[(s & rs & cause & _ & He)
                                 |(s & notes & cause & _ & He)]])]].
  - vm_compute in HA. discriminate HA.
  - vm_compute in HB. discriminate HB.
  - exists block, tx, cause. split; [exact Hb|]. split; [exact Htx|exact He].
  - exfalso. cbn [String.append] in He. discriminate He.
  - exfalso. cbn [String.append] in He. discriminate He.
Defined.

(** The handler on the small chain: block 6 is answered 500 with the error
    of the replay, block 5 is answered 200 with the response. *)
Lemma handler_witness :
  (exists err,
     fst (demoGetWritesReads [("chain", "mainnet"); ("number", "6")])
       = AbortWithError 500 err
     /\ fst (demoRetrace "6" "mainnet") = (RetraceResponse_zero, Some err))
  /\ (exists results,
        fst (demoGetWritesReads [("chain", "mainnet"); ("number", "5")])
          = JSON 200 results
        /\ fst (demoRetrace "5" "mainnet") = (results, None)).
Proof.
  unfold demoGetWritesReads, demoRetrace. split.
  - pose proof (@handler_answers_200_or_500 demoTypes demoCollaborators
                  ChangeSetWriter ChangeSetWriter_Recorder {| DB := demoDB |}
                  [("chain", "mainnet"); ("number", "6")] []) as W.
    cbv zeta in W. destruct W as (_ & Hfail & _).
    apply Hfail. right. right. vm_compute. reflexivity.
  - pose proof (@handler_answers_200_or_500 demoTypes demoCollaborators
                  ChangeSetWriter ChangeSetWriter_Recorder {| DB := demoDB |}
                  [("chain", "mainnet"); ("number", "5")] []) as W.
    cbv zeta in W. destruct W as (Hsnd & _ & Hok & _).
    apply Hok. intros Hf. rewrite Hsnd in Hf.
    apply Retrace_error_iff_fails in Hf. apply Hf. vm_compute. reflexivity.
Defined.
